(** * Mental-Health Journal Assistant: the CLI (app.py) and the Streamlit UI
    (GUI_streamlit.py), embedded as pure functions over explicit inputs
    (file system, remote reply, clock, history store). *)

From Stdlib Require Import String Ascii NArith ZArith QArith Bool Lia Arith
  DecimalString List.
Import ListNotations.

Local Open Scope N_scope.

(** ** Text

    A Python [str] is a sequence of Unicode code points. *)

Definition char := N.
Definition text := list char.

(** An ASCII literal of the source, as code points. *)
Definition lit (s : string) : text := map N_of_ascii (list_ascii_of_string s).

Definition nl : text := [10].
Definition dquote : char := 34.
Definition backtick : char := 96.

Fixpoint text_eqb (a b : text) : bool :=
  match a, b with
  | [], [] => true
  | x :: a', y :: b' => (x =? y) && text_eqb a' b'
  | _, _ => false
  end.

(** [str.isspace] on one code point, which is what [str.strip()] without
    argument removes: the code points CPython lists as whitespace. *)
Definition is_space (c : char) : bool :=
  ((9 <=? c) && (c <=? 13)) || ((28 <=? c) && (c <=? 32))
  || (c =? 133) || (c =? 160) || (c =? 5760)
  || ((8192 <=? c) && (c <=? 8202))
  || (c =? 8232) || (c =? 8233) || (c =? 8239) || (c =? 8287) || (c =? 12288).

Fixpoint lstrip (s : text) : text :=
  match s with
  | [] => []
  | c :: r => if is_space c then lstrip r else s
  end.

Fixpoint rstrip (s : text) : text :=
  match s with
  | [] => []
  | c :: r =>
      match rstrip r with
      | [] => if is_space c then [] else [c]
      | r' => c :: r'
      end
  end.

(** [s.strip()] *)
Definition strip (s : text) : text := rstrip (lstrip s).

(** ** Response Normalizer: the cleaning step

    [re.sub(r"```json|```", "", raw_text)]: scan left to right; at each
    position try the alternatives in order, [```json] first; a match is
    replaced by the empty string and the scan resumes after it, otherwise the
    character is kept. *)

Definition is_tick (c : char) : bool := c =? backtick.

Definition is_json (j s o n : char) : bool :=
  (j =? 106) && (s =? 115) && (o =? 111) && (n =? 110).

Fixpoint sub_fences (s : text) : text :=
  match s with
  | [] => []
  | a :: r1 =>
      match r1 with
      | b :: c :: r3 =>
          if is_tick a && is_tick b && is_tick c then
            match r3 with
            | j :: s' :: o :: n :: r7 =>
                if is_json j s' o n then sub_fences r7 else sub_fences r3
            | _ => sub_fences r3
            end
          else a :: sub_fences r1
      | _ => a :: sub_fences r1
      end
  end.

(** [clean_text = re.sub(r"```json|```", "", raw_text).strip()]
    (app.py line 56, GUI_streamlit.py line 125). *)
Definition clean_text (raw_text : text) : text := strip (sub_fences raw_text).

(** Does the text start with three backticks? *)
Definition starts_fence (s : text) : bool :=
  match s with
  | a :: b :: c :: _ => is_tick a && is_tick b && is_tick c
  | _ => false
  end.

(** Does the text contain three consecutive backticks? *)
Fixpoint has_fence (s : text) : bool :=
  match s with
  | [] => false
  | _ :: r => starts_fence s || has_fence r
  end.

(** ** Decoded JSON values

    What [json.loads] returns: [None], [bool], [int], [float], [str],
    [list] and [dict]. *)

(** A Python float obtained from a JSON number or constant.  A decimal
    literal is kept as its exact value [(-1)^neg * mant * 10^exp10]; the
    rounding to binary64 is not performed. *)
Inductive pyfloat :=
| FNaN
| FInf (neg : bool)
| FDec (neg : bool) (mant : N) (exp10 : Z).

#[warnings="-register-all"]
Inductive json :=
| JNull
| JBool (b : bool)
| JInt (z : Z)
| JFloat (f : pyfloat)
| JStr (s : text)
| JArr (l : list json)
| JObj (d : list (text * json)).

(** A [dict] keeps its keys in insertion order; assigning to a key that is
    present replaces its value in place. *)
Fixpoint dict_set {V} (k : text) (v : V) (d : list (text * V)) : list (text * V) :=
  match d with
  | [] => [(k, v)]
  | (k', v') :: d' =>
      if text_eqb k k' then (k, v) :: d' else (k', v') :: dict_set k v d'
  end.

Fixpoint dict_get {V} (k : text) (d : list (text * V)) : option V :=
  match d with
  | [] => None
  | (k', v') :: d' => if text_eqb k k' then Some v' else dict_get k d'
  end.

(** ** Exceptions and the interpreter *)

Inductive exception :=
| RemoteError (msg : text)   (* what the call to the model raises *)
| TypeError
| KeyError
| EOFError
| ValueError
| RecursionError
| UnicodeEncodeError.

(** What the decoder raises: [JSONDecodeError], or another exception [e]
    with [str(e) = msg]. *)
Inductive failure :=
| JSONDecodeError
| Raised (e : exception) (msg : text).

(** What [json.loads] depends on besides its argument.
    [recursion_room]: how many containers deep the scanner may go before
    the recursion limit of the interpreter stops it, that is the limit
    less the frames in use where [json.loads] is called;
    [int_max_str_digits]: [sys.get_int_max_str_digits()], 0 when the
    length of an integer literal is not limited.

    The room is counted in containers, as the scanner counts it.  The few
    frames that the decoder needs besides, to call the hook for NaN and
    Infinity or to build its [JSONDecodeError], are taken to be there. *)
Class interpreter := {
  recursion_room : nat;
  int_max_str_digits : nat
}.

(** CPython 3.11 as it starts: a recursion limit of 1000, which leaves the
    scanner a little less than that where a front end calls [json.loads]
    (995 levels at the top of a script, fewer below Streamlit), and
    integer literals of 4300 digits at most. *)
Definition cpython_default : interpreter :=
  {| recursion_room := 994; int_max_str_digits := 4300 |}.

(** An interpreter whose limits are out of reach of the sample texts. *)
Definition roomy : interpreter :=
  {| recursion_room := 4000; int_max_str_digits := 0 |}.

(** ** [json.loads]

    The decoder of Python's standard library (json/decoder.py and the
    scanner of the _json module, strict mode, default hooks), as a
    recursive-descent parser over the remaining text.  [Bad f] is the
    exception raised; [OutOfFuel] is an artefact of the fuel and is shown
    below never to be returned by [decode]. *)

Inductive res (A : Type) :=
| Ok (a : A) (rest : text)
| Bad (f : failure)
| OutOfFuel.
Arguments Ok {A} a rest.
Arguments Bad {A} f.
Arguments OutOfFuel {A}.

Definition res_map {A B} (f : A -> B) (r : res A) : res B :=
  match r with
  | Ok a rest => Ok (f a) rest
  | Bad e => Bad e
  | OutOfFuel => OutOfFuel
  end.

(** [WHITESPACE = re.compile(r'[ \t\n\r]*')] *)
Definition is_json_ws (c : char) : bool :=
  (c =? 32) || (c =? 9) || (c =? 10) || (c =? 13).

Fixpoint skip_ws (s : text) : text :=
  match s with
  | [] => []
  | c :: r => if is_json_ws c then skip_ws r else s
  end.

Definition is_digit (c : char) : bool := (48 <=? c) && (c <=? 57).

Definition hex_digit (c : char) : option N :=
  if is_digit c then Some (c - 48)
  else if (97 <=? c) && (c <=? 102) then Some (c - 87)
  else if (65 <=? c) && (c <=? 70) then Some (c - 55)
  else None.

Definition hex4 (a b c d : char) : option N :=
  match hex_digit a, hex_digit b, hex_digit c, hex_digit d with
  | Some x, Some y, Some z, Some w => Some (((x * 16 + y) * 16 + z) * 16 + w)
  | _, _, _, _ => None
  end.

(** [BACKSLASH]: the one-character escapes. *)
Definition backslash (e : char) : option char :=
  if e =? 34 then Some 34          (* quotation mark *)
  else if e =? 92 then Some 92     (* backslash *)
  else if e =? 47 then Some 47     (* slash *)
  else if e =? 98 then Some 8      (* b: backspace *)
  else if e =? 102 then Some 12    (* f: form feed *)
  else if e =? 110 then Some 10    (* n: line feed *)
  else if e =? 114 then Some 13    (* r: carriage return *)
  else if e =? 116 then Some 9     (* t: tab *)
  else None.

Definition is_high_surrogate (u : N) : bool := (55296 <=? u) && (u <=? 56319).
Definition is_low_surrogate (u : N) : bool := (56320 <=? u) && (u <=? 57343).

(** [0x10000 + (((uni - 0xd800) << 10) | (uni2 - 0xdc00))] *)
Definition join_surrogates (uni uni2 : N) : N :=
  65536 + N.lor (N.shiftl (uni - 55296) 10) (uni2 - 56320).

Definition push (c : char) (r : res text) : res text := res_map (cons c) r.

(** [scanstring(s, end, strict=True)], from just after the opening quote:
    the decoded string and the text after the closing quote. *)
Fixpoint scanstring (s : text) : res text :=
  match s with
  | [] => Bad JSONDecodeError
  | c :: t =>
      if c =? dquote then Ok [] t
      else if c =? 92 (* backslash *) then
        match t with
        | [] => Bad JSONDecodeError
        | e :: t1 =>
            if e =? 117 (* u *) then
              match t1 with
              | h1 :: h2 :: h3 :: h4 :: t5 =>
                  match hex4 h1 h2 h3 h4 with
                  | None => Bad JSONDecodeError
                  | Some uni =>
                      if is_high_surrogate uni then
                        match t5 with
                        | b :: u :: g1 :: g2 :: g3 :: g4 :: t11 =>
                            if (b =? 92) && (u =? 117) then
                              match hex4 g1 g2 g3 g4 with
                              | None => Bad JSONDecodeError
                              | Some uni2 =>
                                  if is_low_surrogate uni2
                                  then push (join_surrogates uni uni2) (scanstring t11)
                                  else push uni (scanstring t5)
                              end
                            else push uni (scanstring t5)
                        | _ => push uni (scanstring t5)
                        end
                      else push uni (scanstring t5)
                  end
              | _ => Bad JSONDecodeError
              end
            else
              match backslash e with
              | Some ch => push ch (scanstring t1)
              | None => Bad JSONDecodeError
              end
        end
      else if c <? 32 then Bad JSONDecodeError
      else push c (scanstring t)
  end.

(** [NUMBER_RE]: an optional minus sign and an integer part (a single 0,
    or a nonzero digit followed by digits), then an optional fraction (a
    point and at least one digit), then an optional exponent (e or E, an
    optional sign, at least one digit). *)

Fixpoint span_digits (s : text) : text * text :=
  match s with
  | [] => ([], [])
  | c :: r =>
      if is_digit c then let (ds, r') := span_digits r in (c :: ds, r')
      else ([], s)
  end.

Definition digits_value (ds : text) : N :=
  fold_left (fun acc d => acc * 10 + (d - 48)) ds 0.

Record number_match := {
  nm_neg : bool;
  nm_int : text;               (* digits of the integer part *)
  nm_frac : option text;       (* digits after the point *)
  nm_exp : option (bool * text) (* exponent: negative?, digits *)
}.

Definition match_sign (s : text) : bool * text :=
  match s with
  | c :: r => if c =? 45 then (true, r) else (false, s)
  | [] => (false, s)
  end.

Definition match_int (s : text) : option (text * text) :=
  match s with
  | d :: r =>
      if d =? 48 then Some ([d], r)
      else if is_digit d then let (ds, r') := span_digits r in Some (d :: ds, r')
      else None
  | [] => None
  end.

Definition match_frac (s : text) : option text * text :=
  match s with
  | p :: r =>
      if p =? 46 then
        match span_digits r with
        | ([], _) => (None, s)
        | (ds, r') => (Some ds, r')
        end
      else (None, s)
  | [] => (None, s)
  end.

(** The optional sign of an exponent: is it a minus? *)
Definition match_exp_sign (s : text) : bool * text :=
  match s with
  | g :: r => if g =? 45 then (true, r)
              else if g =? 43 then (false, r) else (false, s)
  | [] => (false, s)
  end.

Definition match_exp (s : text) : option (bool * text) * text :=
  match s with
  | e :: r =>
      if (e =? 101) || (e =? 69) then
        let (neg, r1) := match_exp_sign r in
        match span_digits r1 with
        | ([], _) => (None, s)
        | (ds, r') => (Some (neg, ds), r')
        end
      else (None, s)
  | [] => (None, s)
  end.

Definition match_number (s : text) : option (number_match * text) :=
  let (neg, s1) := match_sign s in
  match match_int s1 with
  | None => None
  | Some (i, s2) =>
      let (f, s3) := match_frac s2 in
      let (e, s4) := match_exp s3 in
      Some ({| nm_neg := neg; nm_int := i; nm_frac := f; nm_exp := e |}, s4)
  end.

(** [parse_float(integer + frac + exp)] when there is a fraction or an
    exponent, [parse_int(integer)] otherwise. *)
Definition number_value (m : number_match) : json :=
  match nm_frac m, nm_exp m with
  | None, None =>
      let n := Z.of_N (digits_value (nm_int m)) in
      JInt (if nm_neg m then (- n)%Z else n)
  | f, e =>
      let fd := match f with Some ds => ds | None => [] end in
      let ev := match e with
                | Some (eneg, ds) =>
                    let n := Z.of_N (digits_value ds) in
                    if eneg then (- n)%Z else n
                | None => 0%Z
                end in
      JFloat (FDec (nm_neg m) (digits_value (nm_int m ++ fd))
                   (ev - Z.of_nat (length fd))%Z)
  end.

(** [s[idx:idx+len(p)] == p]: the text after the prefix [p], if [s] starts
    with it. *)
Fixpoint after_prefix (p s : text) : option text :=
  match p with
  | [] => Some s
  | x :: p' =>
      match s with
      | y :: s' => if x =? y then after_prefix p' s' else None
      | [] => None
      end
  end.

Section Containers.
(** [scan_once] of the enclosing decoder. *)
Variable scan : text -> res json.

(** The loop of [JSONArray], from the first element on. *)
Fixpoint array_items (k : nat) (values : list json) (s : text) : res json :=
  match k with
  | O => OutOfFuel
  | S k' =>
      match scan s with
      | Ok value r =>
          match skip_ws r with
          | c :: r' =>
              if c =? 93 then Ok (JArr (values ++ [value])) r'
              else if c =? 44 then array_items k' (values ++ [value]) (skip_ws r')
              else Bad JSONDecodeError
          | [] => Bad JSONDecodeError
          end
      | Bad f => Bad f
      | OutOfFuel => OutOfFuel
      end
  end.

(** The loop of [JSONObject], from just after the opening quote of a
    key on. *)
Fixpoint object_items (k : nat) (pairs : list (text * json)) (s : text) : res json :=
  match k with
  | O => OutOfFuel
  | S k' =>
      match scanstring s with
      | Ok key r =>
          match skip_ws r with
          | c :: r1 =>
              if c =? 58 then
                match scan (skip_ws r1) with
                | Ok value r2 =>
                    match skip_ws r2 with
                    | c2 :: r3 =>
                        if c2 =? 125 then Ok (JObj (dict_set key value pairs)) r3
                        else if c2 =? 44 then
                          match skip_ws r3 with
                          | q :: r4 =>
                              if q =? dquote
                              then object_items k' (dict_set key value pairs) r4
                              else Bad JSONDecodeError
                          | [] => Bad JSONDecodeError
                          end
                        else Bad JSONDecodeError
                    | [] => Bad JSONDecodeError
                    end
                | Bad f => Bad f
                | OutOfFuel => OutOfFuel
                end
              else Bad JSONDecodeError
          | [] => Bad JSONDecodeError
          end
      | Bad f => Bad f
      | OutOfFuel => OutOfFuel
      end
  end.

(** [JSONArray], from just after the opening bracket. *)
Definition parse_array (k : nat) (s : text) : res json :=
  match skip_ws s with
  | c :: r => if c =? 93 then Ok (JArr []) r else array_items k [] (c :: r)
  | [] => array_items k [] []
  end.

(** [JSONObject], from just after the opening brace. *)
Definition parse_object (k : nat) (s : text) : res json :=
  match skip_ws s with
  | c :: r =>
      if c =? 125 then Ok (JObj []) r
      else if c =? dquote then object_items k [] r
      else Bad JSONDecodeError
  | [] => Bad JSONDecodeError
  end.
End Containers.

Definition literal (p : string) (v : json) (s : text) : option (res json) :=
  match after_prefix (lit p) s with
  | Some r => Some (Ok v r)
  | None => None
  end.

(** [str(n)] of a natural number. *)
Definition decimal (n : nat) : text := lit (NilEmpty.string_of_uint (Nat.to_uint n)).

(** The [ValueError] of [int] on a literal that is too long. *)
Definition too_many_digits (limit digits : nat) : failure :=
  Raised ValueError
    (lit "Exceeds the limit (" ++ decimal limit
     ++ lit " digits) for integer string conversion: value has " ++ decimal digits
     ++ lit " digits; use sys.set_int_max_str_digits() to increase the limit").

(** The [RecursionError] of the scanner on entering a container
    ([Py_EnterRecursiveCall] in the _json module). *)
Definition too_deep (container : string) : failure :=
  Raised RecursionError
    (lit "maximum recursion depth exceeded while decoding a JSON " ++ lit container
     ++ lit " from a unicode string").

Inductive outcome :=
| Returns (v : json)
| Raises (f : failure).

Section Interpreter.
Context {py : interpreter}.

(** The value of a number matched: [parse_float] on a literal with a
    fraction or an exponent, [parse_int], that is [int], on the others.
    [int] raises [ValueError] on a literal of more digits than the
    interpreter allows; it does not look at the limit for a literal of 640
    digits or less. *)
Definition number_result (m : number_match) (rest : text) : res json :=
  match nm_frac m, nm_exp m with
  | None, None =>
      let digits := length (nm_int m) in
      if ((640 <? digits) && (0 <? int_max_str_digits)
          && (int_max_str_digits <? digits))%nat
      then Bad (too_many_digits int_max_str_digits digits)
      else Ok (number_value m) rest
  | _, _ => Ok (number_value m) rest
  end.

(** [_scan_once(string, idx)], with [room] levels of containers left. *)
Fixpoint scan_once (n room : nat) (s : text) : res json :=
  match n with
  | O => OutOfFuel
  | S n' =>
      match s with
      | [] => Bad JSONDecodeError
      | c :: t =>
          if c =? dquote then res_map JStr (scanstring t)
          else if c =? 123 (* left brace *) then
            match room with
            | O => Bad (too_deep "object")
            | S room' => parse_object (scan_once n' room') n' t
            end
          else if c =? 91 (* left bracket *) then
            match room with
            | O => Bad (too_deep "array")
            | S room' => parse_array (scan_once n' room') n' t
            end
          else
            match literal "null" JNull s with Some r => r | None =>
            match literal "true" (JBool true) s with Some r => r | None =>
            match literal "false" (JBool false) s with Some r => r | None =>
            match match_number s with
            | Some (m, r) => number_result m r
            | None =>
            match literal "NaN" (JFloat FNaN) s with Some r => r | None =>
            match literal "Infinity" (JFloat (FInf false)) s with Some r => r | None =>
            match literal "-Infinity" (JFloat (FInf true)) s with Some r => r | None =>
            Bad JSONDecodeError
            end end end end end end end
      end
  end.

(** [JSONDecoder.decode(s)]: skip whitespace, decode one value, skip
    whitespace, and require the end of the text ("Extra data" otherwise). *)
Definition decode (s : text) : outcome :=
  match scan_once (S (length s)) recursion_room (skip_ws s) with
  | Ok v r =>
      match skip_ws r with
      | [] => Returns v
      | _ :: _ => Raises JSONDecodeError
      end
  | Bad f => Raises f
  | OutOfFuel => Raises JSONDecodeError
  end.

(** [json.loads(s)], which is [decode(s)] of the default decoder: the value
    it returns, [None] when it raises instead. *)
Definition json_loads (s : text) : option json :=
  match decode s with
  | Returns v => Some v
  | Raises _ => None
  end.

(** ** Python operations on decoded values *)

(** [float(literal) != 0.0]: the literal rounds to a nonzero binary64 value
    exactly when it exceeds half of the least subnormal, 2^-1075 (the tie
    rounds to the even neighbour, zero). *)
Definition float_nonzero (f : pyfloat) : bool :=
  match f with
  | FNaN | FInf _ => true
  | FDec _ mant exp10 =>
      negb (mant =? 0) &&
      ((0 <=? exp10)%Z || (10 ^ Z.to_N (- exp10) <? mant * 2 ^ 1075))
  end.

(** [bool(v)], as tested by [if response_json:] and [if entry['analysis']:]. *)
Definition truthy (v : json) : bool :=
  match v with
  | JNull => false
  | JBool b => b
  | JInt z => negb (z =? 0)%Z
  | JFloat f => float_nonzero f
  | JStr s => match s with [] => false | _ => true end
  | JArr l => match l with [] => false | _ => true end
  | JObj d => match d with [] => false | _ => true end
  end.

Fixpoint is_substring (k s : text) : bool :=
  match after_prefix k s with
  | Some _ => true
  | None => match s with [] => false | _ :: s' => is_substring k s' end
  end.

(** [key in v] for a string [key]: membership among the keys of a dict,
    among the elements of a list, as a substring of a string; [None] is the
    [TypeError] raised for the other values. *)
Definition py_in (key : text) (v : json) : option bool :=
  match v with
  | JObj d => Some (match dict_get key d with Some _ => true | None => false end)
  | JArr l =>
      Some (existsb (fun x => match x with JStr t => text_eqb key t | _ => false end) l)
  | JStr s => Some (is_substring key s)
  | _ => None
  end.

(** [v[key]] for a string [key]; [None] is the exception raised when [v] is
    not a dict holding the key. *)
Definition py_getitem (v : json) (key : text) : option json :=
  match v with
  | JObj d => dict_get key d
  | _ => None
  end.

(** ** Environment of both front ends *)

(** The prompt file as [open] finds it; [err] is [str(e)] of the exception
    raised. *)
Inductive prompt_file :=
| Missing (err : text)
| Unreadable (err : text)
| Readable (content : text).

Record generation_config := { temperature : Q }.

Record request := {
  model_name : text;
  prompt : text;
  config : generation_config
}.

(** [model.generate_content(...)] followed by [response.text]: the reply
    text, or an exception with [str(e) = msg]. *)
Inductive completion :=
| Reply (raw_text : text)
| Failure (msg : text).

(** A formatted string: literal text and interpolated values. *)
Inductive piece :=
| PText (t : text)
| PInt (z : Z)
| PValue (v : json)     (* str(v) of a decoded value *)
| PDump (v : json)      (* json.dumps(v, indent=4) *)
| PNone.                (* str(None) *)

Definition fstring := list piece.

Definition quoted (t : text) : text := dquote :: t ++ [dquote].

(** ** Request Builder *)

Definition triple_quote : text := [dquote; dquote; dquote].

(** app.py lines 36-46 *)
Definition cli_combined_prompt (Sys_Prompt user_input : text) : text :=
  Sys_Prompt ++ nl
  ++ nl
  ++ lit "User Journal Entry:" ++ nl
  ++ triple_quote ++ user_input ++ triple_quote ++ nl
  ++ nl
  ++ lit "Respond with:" ++ nl
  ++ lit "- Emotion detected" ++ nl
  ++ lit "- Short summary" ++ nl
  ++ lit "- Advice or mental health support message" ++ nl
  ++ lit "- Tone: empathetic and warm" ++ nl.

(** GUI_streamlit.py lines 105-116 *)
Definition gui_combined_prompt (system_prompt user_input : text) : text :=
  system_prompt ++ nl
  ++ nl
  ++ lit "User Journal Entry:" ++ nl
  ++ triple_quote ++ user_input ++ triple_quote ++ nl
  ++ nl
  ++ lit "Respond with:" ++ nl
  ++ lit "- Emotion detected" ++ nl
  ++ lit "- Short summary" ++ nl
  ++ lit "- Advice or mental health support message" ++ nl
  ++ lit "- Tone: empathetic and warm" ++ nl
  ++ nl
  ++ lit "Format your response as valid JSON with keys: emotion_detected, summary, advice".

Definition gemini_flash : text := lit "gemini-2.0-flash".

Definition cli_request (Sys_Prompt user_input : text) : request :=
  {| model_name := gemini_flash;
     prompt := cli_combined_prompt Sys_Prompt user_input;
     config := {| temperature := 9 # 10 |} |}.

Definition gui_request (system_prompt user_input : text) : request :=
  {| model_name := gemini_flash;
     prompt := gui_combined_prompt system_prompt user_input;
     config := {| temperature := 9 # 10 |} |}.

(** ** Command-line front end (app.py)

    What the program prints is listed call by call; [print] is taken to
    succeed, the terminal accepting every character. *)

Definition cli_default_prompt : text := lit "You're a helpful assistant.".

(** Lines 15-20; the second component is what [print] wrote. *)
Definition cli_load_prompt (f : prompt_file) : text * list fstring :=
  match f with
  | Readable content => (content, [])
  | Missing err | Unreadable err =>
      (cli_default_prompt, [[PText (lit "Error:"); PText (lit " "); PText err]])
  end.

Definition ascii_lower (c : char) : char :=
  if (65 <=? c) && (c <=? 90) then c + 32 else c.

(** [user_input.lower() == "exit"]: no code point outside ASCII lowers to
    one of the letters of "exit", so only the ASCII letters matter. *)
Definition is_exit (user_input : text) : bool :=
  text_eqb (map ascii_lower user_input) (lit "exit").

Definition warning_sign : text := [9888; 65039].

(** Lines 54-65: clean the reply, decode it, print the outcome.  The
    handler is for [JSONDecodeError]; another exception of [json.loads]
    leaves before anything is printed.  [json.dumps] is taken to return
    on a value that [json.loads] returned. *)
Definition cli_present (raw_text : text) : list fstring :=
  let clean := clean_text raw_text in
  match decode clean with
  | Returns response_json =>
      [[PText (nl ++ [128236] ++ lit " Gemini's Insight:" ++ nl)];
       [PDump response_json]]
  | Raises JSONDecodeError =>
      [[PText (warning_sign
               ++ lit " Oops! Gemini returned an unexpected response. Here's the raw output:"
               ++ nl)];
       [PText raw_text]]
  | Raises (Raised _ _) => []
  end.

Inductive cli_step :=
| Break (printed : list fstring)
| Next (printed : list fstring)
| Propagates (e : exception).

(** One iteration of the [while True] loop, lines 30-65.  The call to the
    model is outside any [try], and the [try] around [json.loads] catches
    [JSONDecodeError] only. *)
Definition cli_iteration (model : request -> completion)
    (Sys_Prompt user_input : text) : cli_step :=
  if is_exit user_input then
    Break [[PText ([128075] ++ lit " Journal session ended. Stay strong, you're doing great "
                   ++ [128170; 129504])]]
  else
    match model (cli_request Sys_Prompt user_input) with
    | Failure msg => Propagates (RemoteError msg)
    | Reply raw_text =>
        match decode (clean_text raw_text) with
        | Raises (Raised e _) => Propagates e
        | _ => Next (cli_present raw_text)
        end
    end.

Inductive cli_end :=
| Ended
| Crashed (e : exception).

(** The loop over the lines typed; [input()] at the end of the input raises
    [EOFError]. *)
Fixpoint cli_loop (model : request -> completion) (Sys_Prompt : text)
    (typed : list text) : list fstring * cli_end :=
  match typed with
  | [] => ([], Crashed EOFError)
  | user_input :: rest =>
      match cli_iteration model Sys_Prompt user_input with
      | Break printed => (printed, Ended)
      | Propagates e => ([], Crashed e)
      | Next printed =>
          let (more, e) := cli_loop model Sys_Prompt rest in
          (printed ++ more, e)
      end
  end.

Definition cli_main (f : prompt_file) (model : request -> completion)
    (typed : list text) : list fstring * cli_end :=
  let (Sys_Prompt, warned) := cli_load_prompt f in
  let banner := [PText (nl ++ lit "---AI Mental Health Journal Assistant---" ++ nl)] in
  let (printed, e) := cli_loop model Sys_Prompt typed in
  (warned ++ banner :: printed, e).

(** ** Browser front end (GUI_streamlit.py) *)

(** JournalEntry: the dict appended to [st.session_state.journal_history]. *)
Record journal_entry := {
  timestamp : text;
  entry : text;
  analysis : option json
}.

Definition history := list journal_entry.

Inductive st_call :=
| StMarkdown | StWrite | StText | StSubheader
| StError | StWarning | StInfo | StSuccess
| SidebarInfo | SidebarWarning | SidebarError.

#[warnings="-register-all"]
Inductive widget :=
| Elem (call : st_call) (body : fstring)
| Expander (label : fstring) (children : list widget).

Definition says (call : st_call) (t : text) : widget := Elem call [PText t].

(** What a stretch of the script showed, and the exception that ended it,
    if any, after the widgets listed. *)
Definition display := (list widget * option exception)%type.

Definition done (w : list widget) : display := (w, None).
Definition raised (e : exception) : display := ([], Some e).

(** Did the stretch run to its end? *)
Definition completed (d : display) : bool :=
  match snd d with
  | None => true
  | Some _ => false
  end.

Definition and_then (a b : display) : display :=
  match snd a with
  | None => (fst a ++ fst b, snd b)
  | Some _ => a
  end.
Infix ">>" := and_then (at level 61, left associativity).

(** [if key in v: body] *)
Definition when_in (v : json) (key : text) (body : display) : display :=
  match py_in key v with
  | None => raised TypeError
  | Some true => body
  | Some false => done []
  end.

(** A surrogate code point, U+D800 to U+DFFF. *)
Definition is_surrogate (c : char) : bool := (55296 <=? c) && (c <=? 57343).

(** Can Streamlit send [str(x)] to the browser?  The text of an element
    travels as UTF-8, which has no encoding for a surrogate: [st.markdown]
    and [st.write] raise [UnicodeEncodeError] on a string that holds one.
    Among the decoded values only a string can: [str] of any other value
    escapes the surrogates of the strings inside it.  The texts shown as
    they come from outside (the text typed, the raw reply, a message, the
    clock) are strings without surrogates. *)
Definition displayable (x : json) : bool :=
  match x with
  | JStr s => negb (existsb is_surrogate s)
  | _ => true
  end.

(** A call whose argument reads [v[key]] and shows it. *)
Definition with_item (v : json) (key : text) (k : json -> widget) : display :=
  match py_getitem v key with
  | Some x => if displayable x then done [k x] else raised UnicodeEncodeError
  | None => raised (match v with JObj _ => KeyError | _ => TypeError end)
  end.

Definition k_emotion : text := lit "emotion_detected".
Definition k_summary : text := lit "summary".
Definition k_advice : text := lit "advice".

(** Lines 58-74.  [env_key] is [os.getenv("GEMINI_API_KEY")], [typed_key]
    the content of the sidebar input. *)
Definition load_api_key (env_key : option text) (typed_key : text)
  : bool * list widget :=
  let missing := match env_key with Some (_ :: _) => false | _ => true end in
  let api_key := if missing then typed_key
                 else match env_key with Some k => k | None => [] end in
  let warned :=
    if missing
    then [says SidebarWarning
            (warning_sign ++ lit " Gemini API key not found in environment variables")]
    else [] in
  (match api_key with [] => false | _ :: _ => true end, warned).

Definition gui_default_prompt : text :=
  lit "You are a compassionate AI mental health journal assistant. Your role is to:" ++ nl
  ++ lit "1. Analyze the emotional content of journal entries" ++ nl
  ++ lit "2. Provide supportive, empathetic responses" ++ nl
  ++ lit "3. Offer gentle guidance and mental health insights" ++ nl
  ++ lit "4. Maintain a warm, understanding tone" ++ nl
  ++ nl
  ++ lit "Always respond in JSON format with:" ++ nl
  ++ lit "- emotion_detected: main emotion identified" ++ nl
  ++ lit "- summary: brief summary of the entry" ++ nl
  ++ lit "- advice: supportive message or advice" ++ nl
  ++ lit "- tone: empathetic and encouraging".

(** Lines 76-98.  A missing file fails [prompt_file.exists()]; a file that
    exists and cannot be read raises inside the [try]. *)
Definition load_system_prompt (f : prompt_file) : text * list widget :=
  match f with
  | Readable content => (content, [])
  | Missing _ => (gui_default_prompt, [])
  | Unreadable err =>
      (gui_default_prompt,
       [Elem SidebarError [PText (lit "Error loading prompt file: "); PText err]])
  end.

(** Lines 123-135: clean the reply and decode it; the pair returned is
    [(response_json, error)].  [JSONDecodeError] has the inner handler,
    which returns the raw reply; any other exception of [json.loads]
    reaches the outer one, which returns its message. *)
Definition normalize_reply (raw_text : text) : option json * option text :=
  let clean := clean_text raw_text in
  match decode clean with
  | Returns response_json => (Some response_json, None)
  | Raises JSONDecodeError => (None, Some raw_text)
  | Raises (Raised _ msg) => (None, Some (lit "Error: " ++ msg))
  end.

(** Lines 100-135 *)
Definition get_ai_response (model : request -> completion)
    (user_input system_prompt : text) : option json * option text :=
  match model (gui_request system_prompt user_input) with
  | Reply raw_text => normalize_reply raw_text
  | Failure msg => (None, Some (lit "Error: " ++ msg))
  end.

Definition html_div (class : string) : text :=
  lit "<div class=" ++ quoted (lit class) ++ lit ">".

(** Lines 202-218 *)
Definition show_analysis (response_json : json) : display :=
  done [says StMarkdown (html_div "response-container")]
  >> when_in response_json k_emotion
       (with_item response_json k_emotion (fun x =>
          Elem StMarkdown [PText (html_div "emotion-badge" ++ [128522] ++ lit " Emotion: ");
                           PValue x; PText (lit "</div>")]))
  >> when_in response_json k_summary
       (done [says StMarkdown (lit "**" ++ [128203] ++ lit " Summary:**")]
        >> with_item response_json k_summary (fun x => Elem StWrite [PValue x]))
  >> when_in response_json k_advice
       (done [says StMarkdown (lit "**" ++ [128161] ++ lit " AI Guidance:**")]
        >> with_item response_json k_advice (fun x => Elem StWrite [PValue x]))
  >> done [says StMarkdown (lit "</div>")].

(** The body of one expander of the history, lines 243-256. *)
Definition show_entry (e : journal_entry) : display :=
  done [says StMarkdown (html_div "journal-container");
        says StMarkdown (lit "**Your Entry:**");
        says StWrite (entry e)]
  >> match analysis e with
     | Some a =>
         if truthy a then
           done [says StMarkdown (lit "**AI Analysis:**")]
           >> when_in a k_emotion
                (with_item a k_emotion (fun x =>
                   Elem StMarkdown [PText ([127917] ++ lit " **Emotion:** "); PValue x]))
           >> when_in a k_summary
                (with_item a k_summary (fun x =>
                   Elem StMarkdown [PText ([128203] ++ lit " **Summary:** "); PValue x]))
           >> when_in a k_advice
                (with_item a k_advice (fun x =>
                   Elem StMarkdown [PText ([128161] ++ lit " **Advice:** "); PValue x]))
         else done []
     | None => done []
     end
  >> done [says StMarkdown (lit "</div>")].

(** The label of line 242, [number] being [len(journal_history) - i]. *)
Definition entry_label (number : Z) (e : journal_entry) : fstring :=
  [PText ([128197] ++ lit " Entry "); PInt number; PText (lit " - ");
   PText (timestamp e)].

Definition show_expander (number : Z) (e : journal_entry) : display :=
  let (children, exc) := show_entry e in
  ([Expander (entry_label number e) children], exc).

(** [for i, entry in enumerate(reversed(journal_history))], from index [i]
    on; [len] is [len(journal_history)]. *)
Fixpoint show_entries (len : nat) (i : nat) (reversed : list journal_entry) : display :=
  match reversed with
  | [] => done []
  | e :: rest =>
      show_expander (Z.of_nat len - Z.of_nat i) e >> show_entries len (S i) rest
  end.

(** Lines 236-256 *)
Definition show_history (journal_history : history) : display :=
  match journal_history with
  | [] => done []
  | _ :: _ =>
      done [says StMarkdown (lit "---");
            says StSubheader ([128218] ++ lit " Journal History")]
      >> show_entries (length journal_history) 0 (rev journal_history)
  end.

(** A run of the script is triggered by at most one button. *)
Inductive click :=
| NoClick
| ClearHistory
| AnalyzeEntry
| SaveEntry.

(** What one run of the script reads from outside. *)
Record run_input := {
  env_key : option text;          (* os.getenv("GEMINI_API_KEY") *)
  typed_key : text;               (* the sidebar key input *)
  file : prompt_file;             (* prompts/sys_prompts.txt *)
  clicked : click;
  text_area : text;               (* the journal text area *)
  now : text;                     (* datetime.now().strftime(...) *)
  model : request -> completion   (* the remote model *)
}.

(** [if user_input.strip():] *)
Definition nonblank (user_input : text) : bool :=
  match strip user_input with [] => false | _ :: _ => true end.

(** Lines 182-192 *)
Definition save_section (i : run_input) (h : history) : history * list widget :=
  match clicked i with
  | SaveEntry =>
      if nonblank (text_area i) then
        (h ++ [{| timestamp := now i; entry := text_area i; analysis := None |}],
         [says StSuccess (lit "Entry saved!")])
      else (h, [says StWarning (lit "Please write something before saving.")])
  | _ => (h, [])
  end.

Definition unexpected_format : widget :=
  says StError (warning_sign ++ lit " Unexpected response format").

(** Lines 197-234 *)
Definition analyze_section (i : run_input) (system_prompt : text) (h : history)
  : history * display :=
  match clicked i with
  | AnalyzeEntry =>
      if nonblank (text_area i) then
        let (response_json, error) :=
          get_ai_response (model i) (text_area i) system_prompt in
        match response_json with
        | Some v =>
            if truthy v then
              let shown := show_analysis v in
              if completed shown then
                (h ++ [{| timestamp := now i; entry := text_area i;
                          analysis := Some v |}], shown)
              else (h, shown)
            else
              (h, done [unexpected_format;
                        Expander [PText (lit "View raw response")]
                          [Elem StText [match error with Some t => PText t | None => PNone end]]])
        | None =>
            (h, done [unexpected_format;
                      Expander [PText (lit "View raw response")]
                        [Elem StText [match error with Some t => PText t | None => PNone end]]])
        end
      else
        (h, done [says StWarning (lit "Please write something in your journal entry first.")])
  | _ => (h, done [])
  end.

Inductive script_end :=
| Finished (journal_history : history) (shown : list widget) (exc : option exception)
| Rerun (journal_history : history).

(** [main()], lines 138-256, as one run of the script over the session's
    history.  The static furniture of the page (style sheet, titles, input
    widgets, columns) is left out of what is shown. *)
Definition script (i : run_input) (h : history) : script_end :=
  let (have_key, key_widgets) := load_api_key (env_key i) (typed_key i) in
  if negb have_key then
    Finished h
      (key_widgets ++
       [says StError (lit "Please provide your Gemini API key to continue.");
        says StInfo ([128161] ++ lit " You can get your API key from [Google AI Studio](https://makersuite.google.com/app/apikey)")])
      None
  else
    let (system_prompt, prompt_widgets) := load_system_prompt (file i) in
    let sidebar :=
      key_widgets ++ prompt_widgets ++
      [Elem SidebarInfo [PText (lit "Entries today: "); PInt (Z.of_nat (length h))]] in
    match clicked i with
    | ClearHistory => Rerun []
    | _ =>
        let (h1, saved) := save_section i h in
        let (h2, analyzed) := analyze_section i system_prompt h1 in
        let shown := done (sidebar ++ saved) >> analyzed >> show_history h2 in
        Finished h2 (fst shown) (snd shown)
    end.

Record run_result := {
  store : history;
  page : list widget;
  uncaught : option exception
}.

(** A run together with the rerun that [st.rerun()] asks for: the script
    starts over on the updated session state, no button being pressed. *)
Definition main (i : run_input) (h : history) : run_result :=
  match script i h with
  | Finished h' shown exc => {| store := h'; page := shown; uncaught := exc |}
  | Rerun h' =>
      let again := {| env_key := env_key i; typed_key := typed_key i;
                      file := file i; clicked := NoClick;
                      text_area := text_area i; now := now i;
                      model := model i |} in
      match script again h' with
      | Finished h'' shown exc => {| store := h''; page := shown; uncaught := exc |}
      | Rerun h'' => {| store := h''; page := []; uncaught := None |}
      end
  end.

(** The session: the history store threaded through successive runs. *)
Fixpoint session (runs : list run_input) (h : history) : history :=
  match runs with
  | [] => h
  | i :: rest => session rest (store (main i h))
  end.

(** ** Vocabulary of the statements *)

(** The text both combined prompts start with: the system prompt, the
    journal text between triple quotes, and the four bullets. *)
Definition prompt_common (system_prompt user_input : text) : text :=
  system_prompt ++ nl ++ nl
  ++ lit "User Journal Entry:" ++ nl
  ++ triple_quote ++ user_input ++ triple_quote ++ nl ++ nl
  ++ lit "Respond with:" ++ nl
  ++ lit "- Emotion detected" ++ nl
  ++ lit "- Short summary" ++ nl
  ++ lit "- Advice or mental health support message" ++ nl
  ++ lit "- Tone: empathetic and warm".

(** The instruction only the UI adds. *)
Definition format_instruction : text :=
  lit "Format your response as valid JSON with keys: emotion_detected, summary, advice".

(** The system prompt a run works with. *)
Definition run_prompt (i : run_input) : text := fst (load_system_prompt (file i)).

(** The decoded reply of a run's analysis, if any. *)
Definition run_analysis (i : run_input) : option json :=
  fst (get_ai_response (model i) (text_area i) (run_prompt i)).

Definition have_key (i : run_input) : bool :=
  fst (load_api_key (env_key i) (typed_key i)).

(** A save or analyze action that goes through: the key is there, the text
    is not blank and, for an analysis, the reply decodes to a value that
    [if response_json:] accepts and that is displayed without exception. *)
Definition successful (i : run_input) : bool :=
  have_key i && nonblank (text_area i) &&
  match clicked i with
  | SaveEntry => true
  | AnalyzeEntry =>
      match run_analysis i with
      | Some v => truthy v && completed (show_analysis v)
      | None => false
      end
  | _ => false
  end.

(** The entry such an action creates. *)
Definition action_entry (i : run_input) : journal_entry :=
  {| timestamp := now i;
     entry := text_area i;
     analysis := match clicked i with
                 | AnalyzeEntry => run_analysis i
                 | _ => None
                 end |}.

(** The store after a run, case by case. *)
Definition next_store (i : run_input) (h : history) : history :=
  if have_key i then
    match clicked i with
    | NoClick => h
    | ClearHistory => []
    | SaveEntry =>
        if nonblank (text_area i) then h ++ [action_entry i] else h
    | AnalyzeEntry =>
        if nonblank (text_area i) then
          match run_analysis i with
          | Some v =>
              if truthy v && completed (show_analysis v) then h ++ [action_entry i] else h
          | None => h
          end
        else h
    end
  else h.

(** Sample data for the statements below. *)

(** A literal in which the apostrophe stands for the double quote. *)
Definition dq (s : string) : text :=
  map (fun c => if c =? 39 then dquote else c) (lit s).

(** A reply that wraps [inner] in a Markdown JSON code fence. *)
Definition fenced (inner : text) : text := lit "```json" ++ inner ++ lit "```".

Definition sample_doc : text :=
  nl
  ++ dq "{'emotion_detected':'anxiety','summary':'Feeling anxious about an upcoming event','advice':'Try a short breathing exercise.'}"
  ++ nl.

Definition fenced_reply : text := fenced sample_doc.


Definition prose_reply : text := lit "I think you feel okay.".


(** A reply that is an integer of 4301 digits, a one and 4300 zeros. *)
Definition long_integer_reply : text := 49 :: repeat 48 4300.

(** A reply whose summary is the escape of a high surrogate on its own,
    the first half of an emoji cut in two. *)
Definition surrogate_reply : text := dq "{'summary': '\ud83d'}".

Definition sample_run (c : click) (typed reply stamp : text) : run_input :=
  {| env_key := Some (lit "secret");
     typed_key := [];
     file := Missing (lit "[Errno 2] No such file or directory: 'prompts/sys_prompts.txt'");
     clicked := c;
     text_area := typed;
     now := stamp;
     model := fun _ => Reply reply |}.

(** A model whose call fails. *)
Definition service_down : request -> completion :=
  fun _ => Failure (lit "503 Service Unavailable").

Definition anxious : text := lit "I feel anxious about tomorrow".


Definition expander_label (w : widget) : option fstring :=
  match w with
  | Expander label _ => Some label
  | Elem _ _ => None
  end.

(** The timestamp an expander of the history is labelled with. *)
Definition label_timestamp (w : widget) : option text :=
  match w with
  | Expander [_; _; _; PText stamp] _ => Some stamp
  | _ => None
  end.

(** The first exception of two stretches in a row. *)
Definition or_else (a b : option exception) : option exception :=
  match a with
  | None => b
  | Some e => Some e
  end.

(** What reading and showing [v[key]] under [if key in v] raises, if
    anything. *)
Definition item_error (v : json) (key : text) : option exception :=
  match py_in key v with
  | None => Some TypeError
  | Some false => None
  | Some true =>
      match py_getitem v key with
      | Some x => if displayable x then None else Some UnicodeEncodeError
      | None => Some (match v with JObj _ => KeyError | _ => TypeError end)
      end
  end.

(** An entry whose expander is shown without exception. *)
Definition entry_ok (e : journal_entry) : Prop := snd (show_entry e) = None.

(** The expander of the entry listed at index [i] of the reversed store. *)
Definition listed (len : nat) (p : nat * journal_entry) : widget :=
  Expander (entry_label (Z.of_nat len - Z.of_nat (fst p)) (snd p))
           (fst (show_entry (snd p))).

Definition raw_view (t : text) : widget :=
  Expander [PText (lit "View raw response")] [Elem StText [PText t]].

(** ** Vocabulary of the further properties *)

(** [a] is [b] with some characters deleted. *)
Inductive subseq : text -> text -> Prop :=
| subseq_nil : subseq [] []
| subseq_keep c a b : subseq a b -> subseq (c :: a) (c :: b)
| subseq_drop c a b : subseq a b -> subseq a (c :: b).

(** The run input with every button released, as the rerun after a clear
    finds it. *)
Definition released (i : run_input) : run_input :=
  {| env_key := env_key i; typed_key := typed_key i; file := file i;
     clicked := NoClick; text_area := text_area i; now := now i;
     model := model i |}.

(** The run input with another remote model. *)
Definition with_model (m : request -> completion) (i : run_input) : run_input :=
  {| env_key := env_key i; typed_key := typed_key i; file := file i;
     clicked := clicked i; text_area := text_area i; now := now i;
     model := m |}.

(** A clear action that goes through. *)
Definition clears (i : run_input) : bool :=
  have_key i && match clicked i with ClearHistory => true | _ => false end.

(** What the sidebar shows in a run that has a key. *)
Definition sidebar_widgets (i : run_input) (h : history) : list widget :=
  snd (load_api_key (env_key i) (typed_key i))
  ++ snd (load_system_prompt (file i))
  ++ [Elem SidebarInfo [PText (lit "Entries today: "); PInt (Z.of_nat (length h))]].

(** The three widgets of a run without key. *)
Definition key_missing_page : list widget :=
  [says SidebarWarning
     (warning_sign ++ lit " Gemini API key not found in environment variables");
   says StError (lit "Please provide your Gemini API key to continue.");
   says StInfo ([128161] ++ lit " You can get your API key from [Google AI Studio](https://makersuite.google.com/app/apikey)")].

(** Is the field of the object, if it has it, one that can be shown? *)
Definition field_displayable (d : list (text * json)) (key : text) : bool :=
  match dict_get key d with
  | Some x => displayable x
  | None => true
  end.

(** Can the three fields that the UI shows be shown? *)
Definition displayable_fields (d : list (text * json)) : bool :=
  field_displayable d k_emotion && field_displayable d k_summary
  && field_displayable d k_advice.

(** The widgets [show_analysis] emits for a JSON object. *)
Definition object_widgets (d : list (text * json)) : list widget :=
  [says StMarkdown (html_div "response-container")]
  ++ match dict_get k_emotion d with
     | Some x =>
         [Elem StMarkdown [PText (html_div "emotion-badge" ++ [128522] ++ lit " Emotion: ");
                           PValue x; PText (lit "</div>")]]
     | None => []
     end
  ++ match dict_get k_summary d with
     | Some x => [says StMarkdown (lit "**" ++ [128203] ++ lit " Summary:**");
                  Elem StWrite [PValue x]]
     | None => []
     end
  ++ match dict_get k_advice d with
     | Some x => [says StMarkdown (lit "**" ++ [128161] ++ lit " AI Guidance:**");
                  Elem StWrite [PValue x]]
     | None => []
     end
  ++ [says StMarkdown (lit "</div>")].

(** [None], a boolean or a number: the decoded values on which [in]
    raises [TypeError]. *)
Definition is_scalar (v : json) : bool :=
  match v with
  | JNull | JBool _ | JInt _ | JFloat _ => true
  | JStr _ | JArr _ | JObj _ => false
  end.

(** What the raw-response expander shows for [st.text(None)]. *)
Definition none_view : widget :=
  Expander [PText (lit "View raw response")] [Elem StText [PNone]].



(** The exceptions of [json.loads]: [JSONDecodeError], the
    [RecursionError] of a container nested too deep, and the [ValueError]
    of an integer literal of too many digits. *)
Definition expected (f : failure) : Prop :=
  f = JSONDecodeError \/ f = too_deep "object" \/ f = too_deep "array" \/
  exists digits,
    (0 < int_max_str_digits)%nat /\ (int_max_str_digits < digits)%nat /\
    f = too_many_digits int_max_str_digits digits.

(** Does [json.loads] on the cleaned reply end in one of the two ways the
    CLI provides for, a value or [JSONDecodeError]? *)
Definition cli_handles (raw_text : text) : bool :=
  match decode (clean_text raw_text) with
  | Raises (Raised _ _) => false
  | _ => true
  end.

(** Can a JSON value start with this character?  A quotation mark, a
    brace, a bracket, a minus sign, a digit, or the first letter of null,
    true, false, NaN or Infinity. *)
Definition can_start_value (c : char) : bool :=
  (c =? dquote) || (c =? 123) || (c =? 91) || (c =? 45) || is_digit c
  || (c =? 110) || (c =? 116) || (c =? 102) || (c =? 78) || (c =? 73).

(** The two lines the CLI prints for a reply on which decoding fails with
    [JSONDecodeError]. *)
Definition cli_unexpected (raw_text : text) : list fstring :=
  [[PText (warning_sign
           ++ lit " Oops! Gemini returned an unexpected response. Here's the raw output:"
           ++ nl)];
   [PText raw_text]].

End Interpreter.

Infix ">>" := and_then (at level 61, left associativity).

(* ================================================================== *)
(** * Theorems *)
(* ================================================================== *)

(** The properties hold whatever the limits of the interpreter.  A
    statement about both front ends takes them under the same limits. *)
Section Properties.
Context {py : interpreter}.

(** ** Whitespace trimming *)

Lemma lstrip_suffix s : exists w, s = w ++ lstrip s /\ forallb is_space w = true.
Proof.
  induction s as [|c r [w [Hw Hall]]]; simpl.
  - exists []; auto.
  - destruct (is_space c) eqn:E.
    + exists (c :: w); simpl; rewrite E, Hall; split; [congruence|reflexivity].
    + exists []; auto.
Qed.

Lemma rstrip_prefix s : exists w, s = rstrip s ++ w /\ forallb is_space w = true.
Proof.
  induction s as [|c r [w [Hw Hall]]]; simpl.
  - exists []; auto.
  - destruct (rstrip r) as [|x r'] eqn:E.
    + destruct (is_space c) eqn:Ec.
      * exists (c :: w); simpl in *; rewrite Ec, Hall; split; [congruence|reflexivity].
      * exists w; simpl in *; split; congruence.
    + exists w; simpl in *; split; congruence.
Qed.

Lemma lstrip_head s c r : lstrip s = c :: r -> is_space c = false.
Proof.
  induction s as [|x s IH]; simpl; [discriminate|].
  destruct (is_space x) eqn:E; [exact IH|].
  intros H; injection H as <- _; exact E.
Qed.

Lemma lstrip_fixed c r : is_space c = false -> lstrip (c :: r) = c :: r.
Proof. intros H; simpl; now rewrite H. Qed.

Lemma rstrip_head c r :
  is_space c = false -> exists r', rstrip (c :: r) = c :: r'.
Proof.
  intros H; simpl. destruct (rstrip r) as [|x r'].
  - rewrite H; now exists [].
  - now exists (x :: r').
Qed.

Lemma rstrip_idem s : rstrip (rstrip s) = rstrip s.
Proof.
  induction s as [|c r IH]; simpl; [reflexivity|].
  destruct (rstrip r) as [|x r'] eqn:E.
  - destruct (is_space c) eqn:Ec; simpl; [reflexivity|now rewrite Ec].
  - change (rstrip (c :: x :: r')) with
      (match rstrip (x :: r') with
       | [] => if is_space c then [] else [c]
       | r'' => c :: r''
       end).
    now rewrite IH.
Qed.

Lemma strip_idem s : strip (strip s) = strip s.
Proof.
  unfold strip.
  destruct (lstrip s) as [|c r] eqn:E; [reflexivity|].
  apply lstrip_head in E.
  destruct (rstrip_head c r E) as [r' Hr].
  rewrite Hr, (lstrip_fixed c r' E), <- Hr.
  apply rstrip_idem.
Qed.

(** ** Fence removal *)


Lemma has_fence_cons a r : has_fence (a :: r) = starts_fence (a :: r) || has_fence r.
Proof. reflexivity. Qed.

Lemma sub_fences_keep a r :
  starts_fence (a :: r) = false -> sub_fences (a :: r) = a :: sub_fences r.
Proof.
  destruct r as [|b [|c r3]]; try reflexivity.
  simpl. now intros ->.
Qed.

Lemma sub_fences_fixed s : has_fence s = false -> sub_fences s = s.
Proof.
  induction s as [|a r IH]; [reflexivity|].
  rewrite has_fence_cons. intros H. apply orb_false_iff in H as [H1 H2].
  rewrite (sub_fences_keep _ _ H1), (IH H2). reflexivity.
Qed.

(** After a backtick that does not open a fence, the rest of the output
    does not start with two backticks. *)
Lemma sub_fences_after_tick a r :
  starts_fence (a :: r) = false ->
  starts_fence (a :: sub_fences r) = false.
Proof.
  intros H.
  destruct (is_tick a) eqn:Ea.
  2:{ simpl. destruct (sub_fences r) as [|b [|c t]]; try reflexivity.
      now rewrite Ea. }
  destruct r as [|b r]; [reflexivity|].
  destruct (is_tick b) eqn:Eb.
  2:{ assert (Hb : starts_fence (b :: r) = false).
      { simpl. destruct r as [|? [|? ?]]; try reflexivity. now rewrite Eb. }
      rewrite (sub_fences_keep _ _ Hb). simpl.
      destruct (sub_fences r); try reflexivity.
      now rewrite Ea, Eb. }
  destruct r as [|c r]; [reflexivity|].
  simpl in H. rewrite Ea, Eb in H. simpl in H.
  assert (Hb : starts_fence (b :: c :: r) = false).
  { simpl. destruct r; try reflexivity. now rewrite Eb, H. }
  assert (Hc : starts_fence (c :: r) = false).
  { simpl. destruct r as [|? [|? ?]]; try reflexivity. now rewrite H. }
  rewrite (sub_fences_keep _ _ Hb), (sub_fences_keep _ _ Hc).
  simpl. now rewrite Ea, Eb, H.
Qed.

Lemma sub_fences_no_fence_aux n :
  forall s, (length s <= n)%nat -> has_fence (sub_fences s) = false.
Proof.
  induction n as [|n IH]; intros s Hn.
  - destruct s; [reflexivity|simpl in Hn; lia].
  - destruct s as [|a r]; [reflexivity|].
    destruct (starts_fence (a :: r)) eqn:E.
    + destruct r as [|b [|c r3]]; try discriminate.
      simpl in E |- *. rewrite E.
      destruct r3 as [|j [|s' [|o [|k r7]]]];
        try (apply IH; simpl in *; lia).
      destruct (is_json j s' o k); apply IH; simpl in *; lia.
    + rewrite (sub_fences_keep _ _ E), has_fence_cons.
      rewrite (sub_fences_after_tick _ _ E). simpl.
      apply IH. simpl in Hn; lia.
Qed.

Lemma sub_fences_no_fence s : has_fence (sub_fences s) = false.
Proof. apply (sub_fences_no_fence_aux (length s)); lia. Qed.

Lemma starts_fence_app a b : starts_fence a = true -> starts_fence (a ++ b) = true.
Proof. destruct a as [|x [|y [|z a]]]; simpl; auto; discriminate. Qed.

Lemma has_fence_app_l a b : has_fence (a ++ b) = false -> has_fence a = false.
Proof.
  induction a as [|x a IH]; [reflexivity|].
  change ((x :: a) ++ b) with (x :: (a ++ b)).
  rewrite !has_fence_cons. intros H. apply orb_false_iff in H as [H1 H2].
  rewrite (IH H2), orb_false_r.
  destruct (starts_fence (x :: a)) eqn:E; [|reflexivity].
  apply (starts_fence_app _ b) in E. simpl in E, H1. congruence.
Qed.

Lemma has_fence_app_r a b : has_fence (a ++ b) = false -> has_fence b = false.
Proof.
  induction a as [|x a IH]; [auto|].
  change ((x :: a) ++ b) with (x :: (a ++ b)).
  rewrite has_fence_cons. intros H. apply orb_false_iff in H as [_ H2]. auto.
Qed.

Lemma strip_no_fence s : has_fence s = false -> has_fence (strip s) = false.
Proof.
  intros H. unfold strip.
  destruct (lstrip_suffix s) as [w [Hw _]].
  destruct (rstrip_prefix (lstrip s)) as [w' [Hw' _]].
  rewrite Hw in H. apply has_fence_app_r in H.
  rewrite Hw' in H. now apply has_fence_app_l in H.
Qed.

(** C9: the cleaning step (fence removal, then trimming) is idempotent:
    cleaning an already cleaned text leaves it unchanged. *)
Theorem clean_text_idempotent (raw_text : text) :
  clean_text (clean_text raw_text) = clean_text raw_text.
Proof.
  unfold clean_text.
  rewrite (sub_fences_fixed (strip (sub_fences raw_text))).
  - apply strip_idem.
  - apply strip_no_fence, sub_fences_no_fence.
Qed.


(** ** The Streamlit script *)

(** What a run does to the store. *)
Lemma script_store i h :
  match script i h with
  | Finished h' _ _ => h' = next_store i h
  | Rerun h' => h' = [] /\ next_store i h = []
  end.
Proof.
  unfold script, next_store, have_key, action_entry, run_analysis, run_prompt.
  destruct (load_api_key (env_key i) (typed_key i)) as [k kw]; simpl.
  destruct k; simpl; [|reflexivity].
  destruct (load_system_prompt (file i)) as [sp pw]; simpl.
  unfold save_section, analyze_section.
  destruct (clicked i) eqn:Ec; simpl; auto.
  - destruct (nonblank (text_area i)); simpl; [|reflexivity].
    destruct (get_ai_response (model i) (text_area i) sp) as [[v|] err]; simpl;
      [|reflexivity].
    destruct (truthy v); simpl; [|reflexivity].
    destruct (completed (show_analysis v)); reflexivity.
  - destruct (nonblank (text_area i)); reflexivity.
Qed.

Lemma main_store i h : store (main i h) = next_store i h.
Proof.
  unfold main. pose proof (script_store i h) as H.
  destruct (script i h) as [h' shown exc|h']; [exact H|].
  destruct H as [-> ->].
  match goal with |- context [script ?j []] =>
    pose proof (script_store j []) as H; destruct (script j [])
  end; simpl.
  - rewrite H. unfold next_store. simpl. now destruct (have_key _).
  - apply H.
Qed.

Lemma successful_appends i h :
  successful i = true -> store (main i h) = h ++ [action_entry i].
Proof.
  unfold successful. rewrite main_store. unfold next_store.
  destruct (have_key i); simpl; [|discriminate].
  destruct (nonblank (text_area i)); simpl; [|discriminate].
  destruct (clicked i); try discriminate; [|reflexivity].
  destruct (run_analysis i) as [v|]; [|discriminate].
  now intros ->.
Qed.

Lemma session_successful runs :
  forall h, forallb successful runs = true ->
            session runs h = h ++ map action_entry runs.
Proof.
  induction runs as [|i rest IH]; intros h H; simpl.
  - now rewrite app_nil_r.
  - simpl in H. apply andb_true_iff in H as [Hi Hrest].
    rewrite (successful_appends i h Hi), (IH _ Hrest), <- app_assoc.
    reflexivity.
Qed.

(** C3: from the empty store, N successful save-or-analyze actions leave N
    entries, in the order of the actions; a clear action leaves the store
    empty; and a run never does anything to the store but leave it as it
    is, append one entry at the end, or empty it. *)
Theorem history_store_append_and_clear :
  (forall runs, forallb successful runs = true ->
     length (session runs []) = length runs /\
     session runs [] = map action_entry runs) /\
  (forall i h, have_key i = true -> clicked i = ClearHistory ->
     store (main i h) = [] /\ length (store (main i h)) = 0%nat) /\
  (forall i h,
     store (main i h) = h \/
     store (main i h) = [] \/
     exists e, store (main i h) = h ++ [e]).
Proof.
  split; [|split].
  - intros runs H. rewrite (session_successful runs [] H). simpl.
    split; [apply length_map|reflexivity].
  - intros i h Hk Hc. rewrite main_store. unfold next_store.
    rewrite Hk, Hc. split; reflexivity.
  - intros i h. rewrite main_store. unfold next_store.
    destruct (have_key i); [|now left].
    destruct (clicked i); [now left|now right; left| |].
    + destruct (nonblank (text_area i)); [|now left].
      destruct (run_analysis i) as [v|]; [|now left].
      destruct (truthy v && completed (show_analysis v)); [|now left].
      right; right; now exists (action_entry i).
    + destruct (nonblank (text_area i)); [|now left].
      right; right; now exists (action_entry i).
Qed.

(** ** What a run shows *)

Lemma snd_and_then a b : snd (a >> b) = or_else (snd a) (snd b).
Proof. destruct a as [w [e|]]; reflexivity. Qed.

Lemma script_finished i h :
  have_key i = true -> clicked i <> ClearHistory ->
  exists side,
    let saved := save_section i h in
    let analyzed := analyze_section i (run_prompt i) (fst saved) in
    let shown := done (side ++ snd saved) >> snd analyzed >> show_history (fst analyzed) in
    script i h = Finished (fst analyzed) (fst shown) (snd shown).
Proof.
  unfold script, have_key, run_prompt. intros Hk Hc.
  destruct (load_api_key (env_key i) (typed_key i)) as [k kw]. simpl in Hk. subst k.
  destruct (load_system_prompt (file i)) as [sp pw]. simpl.
  exists (kw ++ pw ++ [Elem SidebarInfo [PText (lit "Entries today: "); PInt (Z.of_nat (length h))]]).
  destruct (clicked i); try congruence;
    destruct (save_section i h) as [h1 sv]; simpl;
    destruct (analyze_section i sp h1) as [h2 an]; reflexivity.
Qed.

Lemma main_page i h :
  have_key i = true -> clicked i <> ClearHistory ->
  exists side,
    let saved := save_section i h in
    let analyzed := analyze_section i (run_prompt i) (fst saved) in
    page (main i h) =
      fst (done (side ++ snd saved) >> snd analyzed >> show_history (fst analyzed)).
Proof.
  intros Hk Hc. destruct (script_finished i h Hk Hc) as [side H].
  exists side. unfold main. simpl in H |- *. rewrite H. reflexivity.
Qed.

(** ** Blank input *)

Lemma lstrip_incl s c : In c (lstrip s) -> In c s.
Proof.
  induction s as [|x s IH]; simpl; [auto|].
  destruct (is_space x); [right; auto|auto].
Qed.

Lemma nonblank_has_visible t :
  nonblank t = true -> exists c, In c t /\ is_space c = false.
Proof.
  unfold nonblank, strip. intros H.
  destruct (lstrip t) as [|c r] eqn:E; [discriminate|].
  exists c. split.
  - apply lstrip_incl. rewrite E. now left.
  - exact (lstrip_head t c r E).
Qed.

Lemma next_store_nonblank i h :
  Forall (fun e => nonblank (entry e) = true) h ->
  Forall (fun e => nonblank (entry e) = true) (next_store i h).
Proof.
  intros H. unfold next_store.
  assert (Happ : nonblank (text_area i) = true ->
                 Forall (fun e => nonblank (entry e) = true) (h ++ [action_entry i])).
  { intros Hn. apply Forall_app. split; [exact H|]. constructor; [exact Hn|constructor]. }
  destruct (have_key i); [|exact H].
  destruct (clicked i); auto.
  - destruct (nonblank (text_area i)); [|exact H].
    destruct (run_analysis i) as [v|]; [|exact H].
    destruct (truthy v && completed (show_analysis v)); auto.
  - destruct (nonblank (text_area i)); auto.
Qed.

Lemma session_nonblank runs :
  forall h, Forall (fun e => nonblank (entry e) = true) h ->
            Forall (fun e => nonblank (entry e) = true) (session runs h).
Proof.
  induction runs as [|i rest IH]; intros h H; simpl; [exact H|].
  apply IH. rewrite main_store. now apply next_store_nonblank.
Qed.

(** C10: when the journal text is empty or all whitespace, the save action
    and the analyze action leave the store as it is and show a warning; so
    every entry of a store built from the empty one has a character that
    is not whitespace. *)
Theorem blank_input_is_never_stored :
  (forall i h, have_key i = true -> nonblank (text_area i) = false ->
     (clicked i = SaveEntry ->
        store (main i h) = h /\
        In (says StWarning (lit "Please write something before saving."))
           (page (main i h))) /\
     (clicked i = AnalyzeEntry ->
        store (main i h) = h /\
        In (says StWarning (lit "Please write something in your journal entry first."))
           (page (main i h)))) /\
  (forall runs,
     Forall (fun e => exists c, In c (entry e) /\ is_space c = false)
            (session runs [])).
Proof.
  split.
  - intros i h Hk Hb. split; intros Hc.
    + split.
      * rewrite main_store. unfold next_store. now rewrite Hk, Hc, Hb.
      * destruct (main_page i h Hk) as [side Hp]; [congruence|].
        simpl in Hp. rewrite Hp. unfold save_section, analyze_section.
        rewrite Hc, Hb. simpl.
        rewrite !in_app_iff. cbn [In]. tauto.
    + split.
      * rewrite main_store. unfold next_store. now rewrite Hk, Hc, Hb.
      * destruct (main_page i h Hk) as [side Hp]; [congruence|].
        simpl in Hp. rewrite Hp. unfold save_section, analyze_section.
        rewrite Hc, Hb. simpl.
        rewrite !in_app_iff. cbn [In]. tauto.
  - intros runs.
    assert (H : Forall (fun e => nonblank (entry e) = true) (session runs []))
      by (apply session_nonblank; constructor).
    eapply Forall_impl; [|exact H].
    intros e. apply nonblank_has_visible.
Qed.

(** ** Response Normalizer: decode failure *)

Lemma json_loads_none s :
  json_loads s = None <-> exists f, decode s = Raises f.
Proof.
  unfold json_loads. destruct (decode s) as [v|f]; split;
    try discriminate; try reflexivity.
  - intros [f' H]. discriminate.
  - intros _. now exists f.
Qed.



(** ** Model Client *)

(** C4: in the CLI the call to the model is outside any [try]: an error of
    the remote call leaves the loop and ends the process, nothing being
    printed for it, whereas the UI turns the same error into the string
    "Error: ..." and returns. *)
Theorem cli_remote_error_propagates :
  cli_iteration service_down cli_default_prompt anxious
    = Propagates (RemoteError (lit "503 Service Unavailable")) /\
  cli_loop service_down cli_default_prompt [anxious; lit "exit"]
    = ([], Crashed (RemoteError (lit "503 Service Unavailable"))) /\
  get_ai_response service_down anxious gui_default_prompt
    = (None, Some (lit "Error: 503 Service Unavailable")).
Proof. repeat split. Qed.

(** ** Prompt Loader *)

(** C5: when the prompt file does not exist, each front end works with its
    built-in default prompt, verbatim, and goes on: the UI loader returns
    it without a message, the CLI prints the error and enters its loop
    with it. *)
Theorem missing_prompt_file_gives_default (err : text) :
  load_system_prompt (Missing err) = (gui_default_prompt, []) /\
  fst (cli_load_prompt (Missing err)) = cli_default_prompt /\
  (forall model typed,
     cli_main (Missing err) model typed =
       ([PText (lit "Error:"); PText (lit " "); PText err]
        :: [PText (nl ++ lit "---AI Mental Health Journal Assistant---" ++ nl)]
        :: fst (cli_loop model cli_default_prompt typed),
        snd (cli_loop model cli_default_prompt typed))) /\
  (forall i, file i = Missing err -> run_prompt i = gui_default_prompt).
Proof.
  repeat split.
  - intros model typed. unfold cli_main. simpl.
    now destruct (cli_loop model cli_default_prompt typed).
  - intros i Hf. unfold run_prompt. now rewrite Hf.
Qed.

(** ** Request Builder *)

(** C7, as the code has it: for the same system prompt and journal text
    the two combined prompts start with the same text (system prompt,
    journal text, the four bullets); the CLI prompt ends there with a line
    break, the UI prompt goes on with a blank line and one more formatting
    instruction, so that it is the CLI prompt followed by that addition;
    both requests name the same model and the temperature 0.9. *)
Theorem front_ends_share_prompt_prefix (system_prompt user_input : text) :
  cli_combined_prompt system_prompt user_input
    = prompt_common system_prompt user_input ++ nl /\
  gui_combined_prompt system_prompt user_input
    = prompt_common system_prompt user_input ++ nl ++ nl ++ format_instruction /\
  gui_combined_prompt system_prompt user_input
    = cli_combined_prompt system_prompt user_input ++ nl ++ format_instruction /\
  temperature (config (cli_request system_prompt user_input)) = 9 # 10 /\
  temperature (config (gui_request system_prompt user_input)) = 9 # 10 /\
  model_name (cli_request system_prompt user_input)
    = model_name (gui_request system_prompt user_input).
Proof.
  unfold cli_combined_prompt, gui_combined_prompt, prompt_common, format_instruction.
  repeat split; repeat rewrite <- app_assoc; reflexivity.
Qed.

(** ** Listing of the history *)

Lemma or_else_none_r a : or_else a None = a.
Proof. now destruct a. Qed.

Lemma completed_iff d : completed d = true <-> snd d = None.
Proof. unfold completed. destruct (snd d); split; congruence. Qed.

Lemma snd_when_in_item v key k :
  snd (when_in v key (with_item v key k)) = item_error v key.
Proof.
  unfold when_in, with_item, item_error.
  destruct (py_in key v) as [[|]|]; try reflexivity.
  destruct (py_getitem v key) as [x|]; [|reflexivity].
  now destruct (displayable x).
Qed.

Lemma snd_when_in_titled v key w k :
  snd (when_in v key (done w >> with_item v key k)) = item_error v key.
Proof.
  unfold when_in, with_item, item_error.
  destruct (py_in key v) as [[|]|]; try reflexivity.
  destruct (py_getitem v key) as [x|]; [|reflexivity].
  now destruct (displayable x).
Qed.

(** The exception of the display of an analysis is the first one among
    those of its three fields. *)
Lemma show_analysis_error v :
  snd (show_analysis v)
  = or_else (or_else (item_error v k_emotion) (item_error v k_summary))
            (item_error v k_advice).
Proof.
  unfold show_analysis.
  rewrite !snd_and_then, snd_when_in_item, !snd_when_in_titled.
  cbn [done snd or_else]. now rewrite or_else_none_r.
Qed.

Lemma saved_entry_ok stamp t :
  entry_ok {| timestamp := stamp; entry := t; analysis := None |}.
Proof. reflexivity. Qed.

Lemma analyzed_entry_ok stamp t v :
  snd (show_analysis v) = None ->
  entry_ok {| timestamp := stamp; entry := t; analysis := Some v |}.
Proof.
  rewrite show_analysis_error. intros H.
  unfold entry_ok, show_entry. cbn [analysis].
  destruct (truthy v); [|reflexivity].
  rewrite !snd_and_then, !snd_when_in_item.
  cbn [done snd or_else]. now rewrite or_else_none_r.
Qed.

Lemma next_store_ok i h : Forall entry_ok h -> Forall entry_ok (next_store i h).
Proof.
  intros H. unfold next_store, action_entry.
  destruct (have_key i); [|exact H].
  destruct (clicked i); auto.
  - destruct (nonblank (text_area i)); [|exact H].
    destruct (run_analysis i) as [v|]; [|exact H].
    destruct (truthy v); simpl; [|exact H].
    destruct (completed (show_analysis v)) eqn:E; [|exact H].
    apply completed_iff in E.
    apply Forall_app. split; [exact H|].
    constructor; [now apply analyzed_entry_ok|constructor].
  - destruct (nonblank (text_area i)); [|exact H].
    apply Forall_app. split; [exact H|].
    constructor; [apply saved_entry_ok|constructor].
Qed.

Lemma session_ok runs : forall h, Forall entry_ok h -> Forall entry_ok (session runs h).
Proof.
  induction runs as [|i rest IH]; intros h H; simpl; [exact H|].
  apply IH. rewrite main_store. now apply next_store_ok.
Qed.

Lemma show_entries_ok len l :
  forall i, Forall entry_ok l ->
    show_entries len i l = done (map (listed len) (combine (seq i (length l)) l)).
Proof.
  induction l as [|e l IH]; intros i H; [reflexivity|].
  inversion H as [|? ? He Hl]; subst.
  simpl. rewrite (IH (S i) Hl).
  unfold show_expander, listed. unfold entry_ok in He. cbn [fst snd].
  destruct (show_entry e) as [children exc]. simpl in He. subst exc.
  reflexivity.
Qed.

(** C8: for a non-empty store built by runs of the script from the empty
    one, the history section lists one expander per entry, newest first
    (the reverse of the insertion order), the one at index i carrying the
    number len - i and the timestamp stored in its entry. *)
Theorem history_is_listed_newest_first (runs : list run_input) :
  session runs [] <> [] ->
  exists listing,
    show_history (session runs [])
      = done ([says StMarkdown (lit "---");
               says StSubheader ([128218] ++ lit " Journal History")] ++ listing) /\
    map expander_label listing
      = map (fun p => Some (entry_label
                              (Z.of_nat (length (session runs [])) - Z.of_nat (fst p))
                              (snd p)))
            (combine (seq 0 (length (session runs []))) (rev (session runs []))) /\
    map label_timestamp listing
      = map (fun e => Some (timestamp e)) (rev (session runs [])).
Proof.
  intros Hne.
  assert (Hok : Forall entry_ok (session runs [])) by (apply session_ok; constructor).
  remember (session runs []) as h eqn:Eh. clear Eh.
  exists (map (listed (length h)) (combine (seq 0 (length h)) (rev h))).
  split; [|split].
  - destruct h as [|e h']; [congruence|].
    unfold show_history.
    rewrite show_entries_ok by (apply Forall_rev; exact Hok).
    now rewrite length_rev.
  - rewrite map_map. reflexivity.
  - rewrite map_map.
    rewrite <- (length_rev h).
    generalize (length h) as len, 0%nat as i. generalize (rev h) as l. clear.
    induction l as [|e l IH]; intros len i; [reflexivity|].
    simpl. now rewrite IH.
Qed.

(** ** The decoder: basic facts *)

Ltac break_in H :=
  match type of H with
  | context [match ?x with _ => _ end] => destruct x eqn:?
  | context [if ?x then _ else _] => destruct x eqn:?
  end.

Lemma push_ok c x str r :
  push c x = Ok str r -> exists str', x = Ok str' r /\ str = c :: str'.
Proof.
  destruct x as [a rest| |]; simpl; try discriminate.
  intros H; injection H as <- <-. now exists a.
Qed.

Lemma scanstring_shorter_aux n :
  forall s str r, (length s <= n)%nat -> scanstring s = Ok str r ->
                  (length r < length s)%nat.
Proof.
  induction n as [|n IH]; intros s str r Hn H.
  - destruct s; [discriminate|simpl in Hn; lia].
  - destruct s as [|c t]; [discriminate|].
    simpl in H. simpl in Hn.
    repeat break_in H; try discriminate; subst;
      try (injection H as <- <-; simpl; lia);
      apply push_ok in H as [str' [H _]];
      apply IH in H; simpl in *; lia.
Qed.

Lemma scanstring_shorter s str r :
  scanstring s = Ok str r -> (length r < length s)%nat.
Proof. apply (scanstring_shorter_aux (length s)); lia. Qed.

Lemma skip_ws_length s : (length (skip_ws s) <= length s)%nat.
Proof.
  induction s as [|c s IH]; simpl; [lia|].
  destruct (is_json_ws c); simpl; lia.
Qed.

Lemma span_digits_length s ds r :
  span_digits s = (ds, r) -> (length r <= length s)%nat.
Proof.
  revert ds r. induction s as [|c s IH]; intros ds r; simpl.
  - intros H; injection H as <- <-; simpl; lia.
  - destruct (is_digit c).
    + destruct (span_digits s) as [ds' r'].
      intros H; injection H as <- <-. specialize (IH _ _ eq_refl). lia.
    + intros H; injection H as <- <-; simpl; lia.
Qed.

Lemma match_frac_length s f r :
  match_frac s = (f, r) -> (length r <= length s)%nat.
Proof.
  unfold match_frac. intros H.
  repeat break_in H; injection H as <- <-; subst; simpl; try lia.
  match goal with E : span_digits _ = _ |- _ => apply span_digits_length in E end.
  simpl in *; lia.
Qed.

Lemma match_exp_sign_length s b r :
  match_exp_sign s = (b, r) -> (length r <= length s)%nat.
Proof.
  unfold match_exp_sign. intros H.
  repeat break_in H; injection H as <- <-; subst; simpl; lia.
Qed.

Lemma match_exp_length s e r :
  match_exp s = (e, r) -> (length r <= length s)%nat.
Proof.
  unfold match_exp. intros H.
  repeat break_in H; injection H as <- <-; subst; simpl; try lia;
    repeat match goal with
           | E : span_digits _ = _ |- _ => apply span_digits_length in E
           | E : match_exp_sign _ = _ |- _ => apply match_exp_sign_length in E
           end;
    simpl in *; lia.
Qed.

Lemma match_sign_length s b r :
  match_sign s = (b, r) -> (length r <= length s)%nat.
Proof.
  unfold match_sign. intros H.
  repeat break_in H; injection H as <- <-; subst; simpl; lia.
Qed.

Lemma match_int_shorter s i r :
  match_int s = Some (i, r) -> (length r < length s)%nat.
Proof.
  unfold match_int. intros H.
  repeat break_in H; try discriminate; injection H as <- <-; subst; simpl; try lia.
  match goal with E : span_digits _ = _ |- _ => apply span_digits_length in E end.
  lia.
Qed.

Lemma match_number_shorter s m r :
  match_number s = Some (m, r) -> (length r < length s)%nat.
Proof.
  unfold match_number. intros H.
  destruct (match_sign s) as [neg s1] eqn:E1.
  destruct (match_int s1) as [[i s2]|] eqn:E2; [|discriminate].
  destruct (match_frac s2) as [f s3] eqn:E3.
  destruct (match_exp s3) as [e s4] eqn:E4.
  injection H as <- <-.
  apply match_sign_length in E1. apply match_int_shorter in E2.
  apply match_frac_length in E3. apply match_exp_length in E4. lia.
Qed.

Lemma after_prefix_length p : forall s r,
  after_prefix p s = Some r -> length s = (length p + length r)%nat.
Proof.
  induction p as [|x p IH]; intros s r; simpl.
  - intros H; now injection H as <-.
  - destruct s as [|y s]; [discriminate|].
    destruct (x =? y); [|discriminate].
    intros H. apply IH in H. simpl. lia.
Qed.

Lemma literal_shorter p v s x :
  p <> EmptyString -> literal p v s = Some x ->
  exists r, x = Ok v r /\ (length r < length s)%nat.
Proof.
  unfold literal. intros Hp H.
  destruct (after_prefix (lit p) s) as [r|] eqn:E; [|discriminate].
  injection H as <-. exists r. split; [reflexivity|].
  apply after_prefix_length in E.
  destruct p; [congruence|]. simpl in E. lia.
Qed.

Section ContainerLength.
Variable scan : text -> res json.
Hypothesis scan_shorter :
  forall s v r, scan s = Ok v r -> (length r < length s)%nat.

Lemma array_items_shorter k : forall values s v r,
  array_items scan k values s = Ok v r -> (length r < length s)%nat.
Proof.
  induction k as [|k IH]; intros values s v r H; [discriminate|].
  simpl in H.
  destruct (scan s) as [value r1| |] eqn:E; try discriminate.
  apply scan_shorter in E.
  pose proof (skip_ws_length r1) as Hw.
  destruct (skip_ws r1) as [|c r'] eqn:E1; [discriminate|].
  repeat break_in H; try discriminate.
  - injection H as <- <-. simpl in *; lia.
  - apply IH in H. pose proof (skip_ws_length r'). simpl in *; lia.
Qed.

Lemma object_items_shorter k : forall pairs s v r,
  object_items scan k pairs s = Ok v r -> (length r < length s)%nat.
Proof.
  induction k as [|k IH]; intros pairs s v r H; [discriminate|].
  simpl in H.
  destruct (scanstring s) as [key r0| |] eqn:E0; try discriminate.
  apply scanstring_shorter in E0.
  pose proof (skip_ws_length r0) as Hw0.
  destruct (skip_ws r0) as [|c r1] eqn:E1; [discriminate|].
  destruct (c =? 58); [|discriminate].
  pose proof (skip_ws_length r1) as Hw1.
  destruct (scan (skip_ws r1)) as [value r2| |] eqn:E2; try discriminate.
  apply scan_shorter in E2.
  pose proof (skip_ws_length r2) as Hw2.
  destruct (skip_ws r2) as [|c2 r3] eqn:E3; [discriminate|].
  destruct (c2 =? 125).
  - injection H as <- <-. simpl in *; lia.
  - destruct (c2 =? 44); [|discriminate].
    pose proof (skip_ws_length r3) as Hw3.
    destruct (skip_ws r3) as [|q r4] eqn:E4; [discriminate|].
    destruct (q =? dquote); [|discriminate].
    apply IH in H. simpl in *; lia.
Qed.

Lemma parse_array_shorter k s v r :
  parse_array scan k s = Ok v r -> (length r < length s)%nat.
Proof.
  unfold parse_array. intros H.
  pose proof (skip_ws_length s) as Hw.
  destruct (skip_ws s) as [|c r'] eqn:E.
  - apply array_items_shorter in H. simpl in *; lia.
  - destruct (c =? 93).
    + injection H as <- <-. simpl in *; lia.
    + apply array_items_shorter in H. simpl in *; lia.
Qed.

Lemma parse_object_shorter k s v r :
  parse_object scan k s = Ok v r -> (length r < length s)%nat.
Proof.
  unfold parse_object. intros H.
  pose proof (skip_ws_length s) as Hw.
  destruct (skip_ws s) as [|c r'] eqn:E; [discriminate|].
  destruct (c =? 125).
  - injection H as <- <-. simpl in *; lia.
  - destruct (c =? dquote); [|discriminate].
    apply object_items_shorter in H. simpl in *; lia.
Qed.
End ContainerLength.

Lemma res_map_ok {A B} (f : A -> B) x b r :
  res_map f x = Ok b r -> exists a, x = Ok a r /\ b = f a.
Proof.
  destruct x as [a rest| |]; simpl; try discriminate.
  intros H; injection H as <- <-. now exists a.
Qed.

Lemma scan_once_S n room s :
  scan_once (S n) room s =
    match s with
    | [] => Bad JSONDecodeError
    | c :: t =>
        if c =? dquote then res_map JStr (scanstring t)
        else if c =? 123 then
          match room with
          | O => Bad (too_deep "object")
          | S room' => parse_object (scan_once n room') n t
          end
        else if c =? 91 then
          match room with
          | O => Bad (too_deep "array")
          | S room' => parse_array (scan_once n room') n t
          end
        else
          match literal "null" JNull s with Some r => r | None =>
          match literal "true" (JBool true) s with Some r => r | None =>
          match literal "false" (JBool false) s with Some r => r | None =>
          match match_number s with
          | Some (m, r) => number_result m r
          | None =>
          match literal "NaN" (JFloat FNaN) s with Some r => r | None =>
          match literal "Infinity" (JFloat (FInf false)) s with Some r => r | None =>
          match literal "-Infinity" (JFloat (FInf true)) s with Some r => r | None =>
          Bad JSONDecodeError
          end end end end end end end
    end.
Proof. reflexivity. Qed.

(** A number that is accepted is accepted whatever follows it. *)
Lemma number_result_rest m r0 v r :
  number_result m r0 = Ok v r ->
  r = r0 /\ forall r', number_result m r' = Ok v r'.
Proof.
  unfold number_result.
  destruct (nm_frac m), (nm_exp m);
    try (intros H; injection H as <- <-; split; reflexivity).
  destruct ((640 <? length (nm_int m)) && (0 <? int_max_str_digits)
            && (int_max_str_digits <? length (nm_int m)))%nat; [discriminate|].
  intros H; injection H as <- <-; split; reflexivity.
Qed.

Lemma number_result_no_fuel m r : number_result m r <> OutOfFuel.
Proof.
  unfold number_result.
  destruct (nm_frac m), (nm_exp m); try discriminate.
  destruct ((640 <? length (nm_int m)) && (0 <? int_max_str_digits)
            && (int_max_str_digits <? length (nm_int m)))%nat; discriminate.
Qed.

(** A decoded value consumes at least one character. *)
Lemma scan_once_shorter n : forall room s v r,
  scan_once n room s = Ok v r -> (length r < length s)%nat.
Proof.
  induction n as [|n IH]; intros room s v r H; [discriminate|].
  rewrite scan_once_S in H. destruct s as [|c t]; [discriminate|].
  destruct (c =? dquote).
  { apply res_map_ok in H as [a [H _]]. apply scanstring_shorter in H. simpl; lia. }
  destruct (c =? 123).
  { destruct room as [|room]; [discriminate|].
    apply (parse_object_shorter _ (IH room)) in H. simpl; lia. }
  destruct (c =? 91).
  { destruct room as [|room]; [discriminate|].
    apply (parse_array_shorter _ (IH room)) in H. simpl; lia. }
  repeat match type of H with
  | context [match literal ?p ?x ?s with _ => _ end] =>
      let E := fresh "E" in
      destruct (literal p x s) eqn:E;
      [apply literal_shorter in E as [r' [-> Hr]]; [|discriminate];
       injection H as <- <-; exact Hr|]
  | context [match match_number ?s with _ => _ end] =>
      let E := fresh "E" in
      destruct (match_number s) as [[m r']|] eqn:E;
      [apply match_number_shorter in E;
       apply number_result_rest in H as [-> _]; exact E|]
  end.
  discriminate.
Qed.

(** ** The decoder: what it raises *)

Lemma literal_ok p v s x :
  literal p v s = Some x -> exists r, x = Ok v r.
Proof.
  unfold literal. destruct (after_prefix (lit p) s) as [r|]; [|discriminate].
  intros H; injection H as <-. now exists r.
Qed.


Lemma push_bad c x f : push c x = Bad f -> x = Bad f.
Proof. destruct x; simpl; congruence. Qed.

Lemma scanstring_bad_aux n :
  forall s f, (length s <= n)%nat -> scanstring s = Bad f -> f = JSONDecodeError.
Proof.
  induction n as [|n IH]; intros s f Hn H.
  - destruct s; [simpl in H; congruence|simpl in Hn; lia].
  - destruct s as [|c t]; [simpl in H; congruence|].
    simpl in H. simpl in Hn.
    repeat break_in H; try discriminate; subst;
      try (injection H as <-; reflexivity);
      apply push_bad in H; (apply IH in H; [exact H|simpl in *; lia]).
Qed.

(** A string raises nothing but [JSONDecodeError]. *)
Lemma scanstring_bad s f : scanstring s = Bad f -> f = JSONDecodeError.
Proof. apply (scanstring_bad_aux (length s)); lia. Qed.

Lemma number_result_bad m r f :
  number_result m r = Bad f ->
  exists digits,
    (0 < int_max_str_digits)%nat /\ (int_max_str_digits < digits)%nat /\
    f = too_many_digits int_max_str_digits digits.
Proof.
  unfold number_result.
  destruct (nm_frac m), (nm_exp m); try discriminate.
  destruct ((640 <? length (nm_int m)) && (0 <? int_max_str_digits)
            && (int_max_str_digits <? length (nm_int m)))%nat eqn:E; [|discriminate].
  apply andb_true_iff in E as [E E3]. apply andb_true_iff in E as [E1 E2].
  apply Nat.ltb_lt in E2, E3.
  intros H; injection H as <-. now exists (length (nm_int m)).
Qed.

Lemma span_digits_fst_length s : (length (fst (span_digits s)) <= length s)%nat.
Proof.
  induction s as [|c s IH]; simpl; [lia|].
  destruct (is_digit c); [|simpl; lia].
  destruct (span_digits s) as [ds r]. simpl in *. lia.
Qed.

(** The digits of the integer part of a number are characters of the
    text. *)
Lemma match_number_int_length s m r :
  match_number s = Some (m, r) -> (length (nm_int m) <= length s)%nat.
Proof.
  unfold match_number.
  destruct (match_sign s) as [neg s1] eqn:E1.
  apply match_sign_length in E1.
  destruct (match_int s1) as [[i s2]|] eqn:E2; [|discriminate].
  destruct (match_frac s2) as [f s3]. destruct (match_exp s3) as [e s4].
  intros H; injection H as <- _. cbn [nm_int].
  unfold match_int in E2. destruct s1 as [|d s1]; [discriminate|].
  destruct (d =? 48).
  - injection E2 as <- _. simpl in *. lia.
  - destruct (is_digit d); [|discriminate].
    pose proof (span_digits_fst_length s1) as Hd.
    destruct (span_digits s1) as [ds r']. injection E2 as <- _.
    simpl in *. lia.
Qed.

Section ContainerRaises.
Variable scan : text -> res json.
Variable bound : nat.
Variable P : failure -> Prop.
Hypothesis P_decode : P JSONDecodeError.
Hypothesis scan_shorter :
  forall s v r, scan s = Ok v r -> (length r < length s)%nat.
Hypothesis scan_raises :
  forall s f, (length s <= bound)%nat -> scan s = Bad f -> P f.

Lemma array_items_raises k : forall values s f,
  (length s <= bound)%nat -> array_items scan k values s = Bad f -> P f.
Proof.
  induction k as [|k IH]; intros values s f Hb H; [discriminate|].
  simpl in H.
  destruct (scan s) as [value r1|f1|] eqn:E; try discriminate.
  - apply scan_shorter in E.
    pose proof (skip_ws_length r1) as Hw.
    destruct (skip_ws r1) as [|c r']; [injection H as <-; exact P_decode|].
    destruct (c =? 93); [discriminate|].
    destruct (c =? 44); [|injection H as <-; exact P_decode].
    pose proof (skip_ws_length r').
    apply IH in H; [exact H|simpl in *; lia].
  - injection H as <-. now apply scan_raises in E.
Qed.

Lemma object_items_raises k : forall pairs s f,
  (length s <= bound)%nat -> object_items scan k pairs s = Bad f -> P f.
Proof.
  induction k as [|k IH]; intros pairs s f Hb H; [discriminate|].
  simpl in H.
  destruct (scanstring s) as [key r0|f0|] eqn:E0; try discriminate.
  2:{ injection H as <-. apply scanstring_bad in E0. now subst f0. }
  apply scanstring_shorter in E0.
  pose proof (skip_ws_length r0) as Hw0.
  destruct (skip_ws r0) as [|c r1]; [injection H as <-; exact P_decode|].
  destruct (c =? 58); [|injection H as <-; exact P_decode].
  pose proof (skip_ws_length r1) as Hw1.
  destruct (scan (skip_ws r1)) as [value r2|f2|] eqn:E2; try discriminate.
  2:{ injection H as <-. apply scan_raises in E2; [exact E2|simpl in *; lia]. }
  apply scan_shorter in E2.
  pose proof (skip_ws_length r2) as Hw2.
  destruct (skip_ws r2) as [|c2 r3]; [injection H as <-; exact P_decode|].
  destruct (c2 =? 125); [discriminate|].
  destruct (c2 =? 44); [|injection H as <-; exact P_decode].
  pose proof (skip_ws_length r3) as Hw3.
  destruct (skip_ws r3) as [|q r4]; [injection H as <-; exact P_decode|].
  destruct (q =? dquote); [|injection H as <-; exact P_decode].
  apply IH in H; [exact H|simpl in *; lia].
Qed.

Lemma parse_array_raises k s f :
  (length s <= bound)%nat -> parse_array scan k s = Bad f -> P f.
Proof.
  unfold parse_array. intros Hb.
  pose proof (skip_ws_length s) as Hw.
  destruct (skip_ws s) as [|c r]; [apply array_items_raises; simpl; lia|].
  destruct (c =? 93); [discriminate|apply array_items_raises; simpl in *; lia].
Qed.

Lemma parse_object_raises k s f :
  (length s <= bound)%nat -> parse_object scan k s = Bad f -> P f.
Proof.
  unfold parse_object. intros Hb.
  pose proof (skip_ws_length s) as Hw.
  destruct (skip_ws s) as [|c r]; [intros H; injection H as <-; exact P_decode|].
  destruct (c =? 125); [discriminate|].
  destruct (c =? dquote); [apply object_items_raises; simpl in *; lia|].
  intros H; injection H as <-; exact P_decode.
Qed.
End ContainerRaises.

(** The scanner raises nothing but the expected exceptions. *)
Lemma scan_once_raises n : forall room s f,
  scan_once n room s = Bad f -> expected f.
Proof.
  induction n as [|n IH]; intros room s f H; [discriminate|].
  rewrite scan_once_S in H. destruct s as [|c t].
  { injection H as <-. now left. }
  destruct (c =? dquote).
  { destruct (scanstring t) as [a r|f0|] eqn:E; try discriminate.
    simpl in H. injection H as <-. apply scanstring_bad in E. now left. }
  destruct (c =? 123).
  { destruct room as [|room].
    - injection H as <-. right. now left.
    - apply (parse_object_raises _ (length t) expected) in H;
        [exact H|now left|apply scan_once_shorter|intros s f0 _; exact (IH room s f0)|lia]. }
  destruct (c =? 91).
  { destruct room as [|room].
    - injection H as <-. right. right. now left.
    - apply (parse_array_raises _ (length t) expected) in H;
        [exact H|now left|apply scan_once_shorter|intros s f0 _; exact (IH room s f0)|lia]. }
  repeat match type of H with
  | context [match literal ?p ?x ?s with _ => _ end] =>
      let E := fresh "E" in
      destruct (literal p x s) eqn:E;
      [apply literal_ok in E as [r' ->]; discriminate|]
  | context [match match_number ?s with _ => _ end] =>
      destruct (match_number s) as [[m r']|];
      [apply number_result_bad in H; right; right; now right|]
  end.
  injection H as <-. now left.
Qed.

(** On a text of 640 characters at most, and of no more characters than
    the scanner has levels, the scanner raises nothing but
    [JSONDecodeError]: each level entered and each digit is a character
    of the text. *)
Lemma scan_once_short n : forall room s f,
  (length s <= room)%nat -> (length s <= 640)%nat ->
  scan_once n room s = Bad f -> f = JSONDecodeError.
Proof.
  induction n as [|n IH]; intros room s f Hr Hs H; [discriminate|].
  rewrite scan_once_S in H. destruct s as [|c t].
  { now injection H as <-. }
  simpl in Hr, Hs.
  destruct (c =? dquote).
  { destruct (scanstring t) as [a r|f0|] eqn:E; try discriminate.
    simpl in H. injection H as <-. now apply scanstring_bad in E. }
  destruct (c =? 123).
  { destruct room as [|room]; [lia|].
    apply (parse_object_raises _ (length t) (fun f => f = JSONDecodeError)) in H;
      [exact H|reflexivity|apply scan_once_shorter| |lia].
    intros s f0 Hl. apply IH; lia. }
  destruct (c =? 91).
  { destruct room as [|room]; [lia|].
    apply (parse_array_raises _ (length t) (fun f => f = JSONDecodeError)) in H;
      [exact H|reflexivity|apply scan_once_shorter| |lia].
    intros s f0 Hl. apply IH; lia. }
  repeat match type of H with
  | context [match literal ?p ?x ?s with _ => _ end] =>
      let E := fresh "E" in
      destruct (literal p x s) eqn:E;
      [apply literal_ok in E as [r' ->]; discriminate|]
  | context [match match_number ?s with _ => _ end] =>
      let E := fresh "E" in
      destruct (match_number s) as [[m r']|] eqn:E;
      [apply match_number_int_length in E; simpl in E; exfalso|]
  end.
  - unfold number_result in H.
    destruct (nm_frac m), (nm_exp m); try discriminate.
    destruct (640 <? length (nm_int m))%nat eqn:E6.
    + apply Nat.ltb_lt in E6. lia.
    + simpl in H. discriminate.
  - now injection H as <-.
Qed.

Lemma expected_raised e msg :
  expected (Raised e msg) -> e = RecursionError \/ e = ValueError.
Proof.
  intros [H|[H|[H|[digits [_ [_ H]]]]]]; try discriminate;
    injection H as -> _; auto.
Qed.

Lemma decode_raises s f : decode s = Raises f -> expected f.
Proof.
  unfold decode.
  destruct (scan_once (S (length s)) recursion_room (skip_ws s)) as [v r|f0|] eqn:E.
  - destruct (skip_ws r); [discriminate|]. intros H; injection H as <-. now left.
  - intros H; injection H as <-. exact (scan_once_raises _ _ _ _ E).
  - intros H; injection H as <-. now left.
Qed.

(** ** The decoder: enough fuel *)

Lemma scanstring_no_fuel_aux n :
  forall s, (length s <= n)%nat -> scanstring s <> OutOfFuel.
Proof.
  induction n as [|n IH]; intros s Hn H.
  - destruct s; [discriminate|simpl in Hn; lia].
  - destruct s as [|c t]; [discriminate|].
    simpl in H, Hn.
    repeat break_in H; try discriminate; subst;
      match type of H with
      | push _ ?x = _ =>
          destruct x eqn:E; try discriminate;
          apply IH in E; [exact E|simpl in *; lia]
      end.
Qed.

Lemma scanstring_no_fuel s : scanstring s <> OutOfFuel.
Proof. apply (scanstring_no_fuel_aux (length s)); lia. Qed.

Section ContainerFuel.
Variable scan : text -> res json.
Variable bound : nat.
Hypothesis scan_shorter :
  forall s v r, scan s = Ok v r -> (length r < length s)%nat.
Hypothesis scan_total :
  forall s, (length s <= bound)%nat -> scan s <> OutOfFuel.

Lemma array_items_total k : forall values s,
  (length s < k)%nat -> (length s <= bound)%nat ->
  array_items scan k values s <> OutOfFuel.
Proof.
  induction k as [|k IH]; intros values s Hk Hb; [lia|].
  simpl.
  pose proof (scan_total s Hb) as Ht.
  destruct (scan s) as [value r1| |] eqn:E; try congruence.
  apply scan_shorter in E.
  pose proof (skip_ws_length r1) as Hw.
  destruct (skip_ws r1) as [|c r']; [discriminate|].
  destruct (c =? 93); [discriminate|].
  destruct (c =? 44); [|discriminate].
  pose proof (skip_ws_length r').
  apply IH; simpl in *; lia.
Qed.

Lemma object_items_total k : forall pairs s,
  (length s < k)%nat -> (length s <= bound)%nat ->
  object_items scan k pairs s <> OutOfFuel.
Proof.
  induction k as [|k IH]; intros pairs s Hk Hb; [lia|].
  simpl.
  pose proof (scanstring_no_fuel s) as Hs.
  destruct (scanstring s) as [key r0| |] eqn:E0; try congruence.
  apply scanstring_shorter in E0.
  pose proof (skip_ws_length r0) as Hw0.
  destruct (skip_ws r0) as [|c r1]; [discriminate|].
  destruct (c =? 58); [|discriminate].
  pose proof (skip_ws_length r1) as Hw1.
  assert (Ht : scan (skip_ws r1) <> OutOfFuel)
    by (apply scan_total; simpl in *; lia).
  destruct (scan (skip_ws r1)) as [value r2| |] eqn:E2; try congruence.
  apply scan_shorter in E2.
  pose proof (skip_ws_length r2) as Hw2.
  destruct (skip_ws r2) as [|c2 r3]; [discriminate|].
  destruct (c2 =? 125); [discriminate|].
  destruct (c2 =? 44); [|discriminate].
  pose proof (skip_ws_length r3) as Hw3.
  destruct (skip_ws r3) as [|q r4]; [discriminate|].
  destruct (q =? dquote); [|discriminate].
  apply IH; simpl in *; lia.
Qed.

Lemma parse_array_total k s :
  (length s < k)%nat -> (length s <= bound)%nat ->
  parse_array scan k s <> OutOfFuel.
Proof.
  unfold parse_array. intros Hk Hb.
  pose proof (skip_ws_length s) as Hw.
  destruct (skip_ws s) as [|c r].
  - apply array_items_total; simpl; lia.
  - destruct (c =? 93); [discriminate|].
    apply array_items_total; simpl in *; lia.
Qed.

Lemma parse_object_total k s :
  (length s < k)%nat -> (length s <= bound)%nat ->
  parse_object scan k s <> OutOfFuel.
Proof.
  unfold parse_object. intros Hk Hb.
  pose proof (skip_ws_length s) as Hw.
  destruct (skip_ws s) as [|c r]; [discriminate|].
  destruct (c =? 125); [discriminate|].
  destruct (c =? dquote); [|discriminate].
  apply object_items_total; simpl in *; lia.
Qed.
End ContainerFuel.

Lemma literal_no_fuel p v s : literal p v s <> Some OutOfFuel.
Proof. unfold literal. destruct (after_prefix (lit p) s); discriminate. Qed.

(** With more fuel than characters the decoder never runs out of fuel. *)
Lemma scan_once_total n : forall room s,
  (length s < n)%nat -> scan_once n room s <> OutOfFuel.
Proof.
  induction n as [|n IH]; intros room s Hn; [lia|].
  rewrite scan_once_S. destruct s as [|c t]; [discriminate|]. simpl in Hn.
  destruct (c =? dquote).
  { pose proof (scanstring_no_fuel t). destruct (scanstring t); simpl; congruence. }
  destruct (c =? 123).
  { destruct room as [|room]; [discriminate|].
    apply (parse_object_total (scan_once n room) (length t)); try lia.
    - apply scan_once_shorter.
    - intros s Hs. apply IH. lia. }
  destruct (c =? 91).
  { destruct room as [|room]; [discriminate|].
    apply (parse_array_total (scan_once n room) (length t)); try lia.
    - apply scan_once_shorter.
    - intros s Hs. apply IH. lia. }
  repeat match goal with
  | |- context [match literal ?p ?x ?s with _ => _ end] =>
      let E := fresh "E" in
      pose proof (literal_no_fuel p x s);
      destruct (literal p x s) eqn:E; [congruence|]
  | |- context [match match_number ?s with _ => _ end] =>
      destruct (match_number s) as [[m r']|]; [apply number_result_no_fuel|]
  end.
  discriminate.
Qed.

(** The fuel [decode] gives the scanner is enough: what it raises is what
    the scanner raised. *)
Lemma decode_fuel s : scan_once (S (length s)) recursion_room (skip_ws s) <> OutOfFuel.
Proof. apply scan_once_total. pose proof (skip_ws_length s). lia. Qed.

Section ContainerMono.
Variables scan scan' : text -> res json.
Hypothesis scan_mono : forall s, scan s <> OutOfFuel -> scan' s = scan s.


End ContainerMono.



(** ** The decoder never consumes a trailing whitespace character *)

Section TrailingSpace.
Variable w : char.
Hypothesis space_w : is_space w = true.























Section TrailingContainers.
Variable scan : text -> res json.
Hypothesis scan_keeps : forall x a r,
  scan (x ++ [w]) = Ok a r -> exists r0, r = r0 ++ [w] /\ scan x = Ok a r0.
Hypothesis scan_nil : forall a r, scan [] <> Ok a r.









End TrailingContainers.




End TrailingSpace.

(** ** Decoding a trimmed text *)

Lemma json_ws_is_space c : is_json_ws c = true -> is_space c = true.
Proof.
  unfold is_json_ws. intros H.
  repeat (apply orb_true_iff in H as [H|H]);
    apply N.eqb_eq in H; subst; reflexivity.
Qed.





Lemma json_loads_some s v : json_loads s = Some v <-> decode s = Returns v.
Proof.
  unfold json_loads. destruct (decode s) as [v'|f]; split; congruence.
Qed.



(** ** Response Normalizer: fenced replies *)




(* ================================================================== *)
(** * Further properties *)
(* ================================================================== *)

(** ** Further properties of the cleaning step *)

Lemma strip_fixed_iff_clean s : has_fence s = false -> clean_text s = strip s.
Proof. intros H. unfold clean_text. now rewrite sub_fences_fixed. Qed.

(** X1: a cleaned text contains no triple backtick and has no whitespace
    at either end; the texts that cleaning leaves unchanged are exactly
    those with no triple backtick and no whitespace at either end. *)
Theorem clean_text_normal_form (s : text) :
  has_fence (clean_text s) = false /\
  strip (clean_text s) = clean_text s /\
  (clean_text s = s <-> has_fence s = false /\ strip s = s).
Proof.
  assert (Hf : has_fence (clean_text s) = false)
    by (apply strip_no_fence, sub_fences_no_fence).
  split; [exact Hf|]. split; [apply strip_idem|]. split.
  - intros H. rewrite H in Hf. split; [exact Hf|].
    rewrite <- (strip_fixed_iff_clean s Hf). exact H.
  - intros [H1 H2]. now rewrite (strip_fixed_iff_clean s H1).
Qed.

Lemma subseq_refl s : subseq s s.
Proof. induction s; constructor; assumption. Qed.

Lemma subseq_trans a b c : subseq a b -> subseq b c -> subseq a c.
Proof.
  intros Hab Hbc. revert a Hab.
  induction Hbc as [|x b c Hbc IH|x b c Hbc IH]; intros a Hab.
  - exact Hab.
  - inversion Hab; subst.
    + constructor. now apply IH.
    + apply subseq_drop. now apply IH.
  - apply subseq_drop. now apply IH.
Qed.

Lemma subseq_app_r w s : subseq s (w ++ s).
Proof. induction w; simpl; [apply subseq_refl|now apply subseq_drop]. Qed.

Lemma subseq_app_l s w : subseq s (s ++ w).
Proof.
  induction s as [|c s IH]; simpl.
  - induction w; constructor; assumption.
  - now constructor.
Qed.

Lemma subseq_length a b : subseq a b -> (length a <= length b)%nat.
Proof. induction 1; simpl; lia. Qed.

Lemma subseq_incl a b : subseq a b -> incl a b.
Proof.
  induction 1 as [|c a b H IH|c a b H IH]; intros x Hx.
  - exact Hx.
  - destruct Hx as [->|Hx]; [now left|right; now apply IH].
  - right. now apply IH.
Qed.

Lemma sub_fences_subseq_aux n :
  forall s, (length s <= n)%nat -> subseq (sub_fences s) s.
Proof.
  induction n as [|n IH]; intros s Hn.
  - destruct s; [constructor|simpl in Hn; lia].
  - destruct s as [|a r]; [constructor|].
    destruct (starts_fence (a :: r)) eqn:E.
    + destruct r as [|b [|c r3]]; try discriminate.
      simpl in E |- *. rewrite E.
      do 3 apply subseq_drop.
      destruct r3 as [|j [|s' [|o [|k r7]]]];
        try (apply IH; simpl in *; lia).
      destruct (is_json j s' o k); [|apply IH; simpl in *; lia].
      do 4 apply subseq_drop. apply IH. simpl in *; lia.
    + rewrite (sub_fences_keep _ _ E). constructor. apply IH. simpl in Hn; lia.
Qed.

Lemma strip_subseq s : subseq (strip s) s.
Proof.
  unfold strip.
  destruct (lstrip_suffix s) as [w [Hw _]].
  destruct (rstrip_prefix (lstrip s)) as [w' [Hw' _]].
  apply subseq_trans with (lstrip s).
  - rewrite Hw' at 2. apply subseq_app_l.
  - rewrite Hw at 2. apply subseq_app_r.
Qed.

Lemma clean_text_subseq raw_text : subseq (clean_text raw_text) raw_text.
Proof.
  unfold clean_text. apply subseq_trans with (sub_fences raw_text).
  - apply strip_subseq.
  - apply (sub_fences_subseq_aux (length raw_text)). lia.
Qed.

(** X2: cleaning only deletes characters: the cleaned text is the raw text
    with some characters removed, the others staying in their order, so
    it is no longer than the raw text and has no character the raw text
    lacks. *)
Theorem clean_text_only_deletes (raw_text : text) :
  subseq (clean_text raw_text) raw_text /\
  (length (clean_text raw_text) <= length raw_text)%nat /\
  incl (clean_text raw_text) raw_text.
Proof.
  pose proof (clean_text_subseq raw_text) as H.
  split; [exact H|]. split; [now apply subseq_length|now apply subseq_incl].
Qed.


(** ** Further properties of the Streamlit script *)

(** A run that has a key and is not a clear: the store, the page and the
    exception, section by section. *)
Lemma main_run i h :
  have_key i = true -> clicked i <> ClearHistory ->
  let saved := save_section i h in
  let analyzed := analyze_section i (run_prompt i) (fst saved) in
  let shown := done (sidebar_widgets i h ++ snd saved) >> snd analyzed
               >> show_history (fst analyzed) in
  main i h = {| store := fst analyzed; page := fst shown; uncaught := snd shown |}.
Proof.
  unfold main, script, have_key, run_prompt, sidebar_widgets. intros Hk Hc.
  destruct (load_api_key (env_key i) (typed_key i)) as [k kw]. simpl in Hk. subst k.
  destruct (load_system_prompt (file i)) as [sp pw]. cbn [negb fst snd].
  destruct (clicked i); try congruence;
    destruct (save_section i h) as [h1 sv]; cbn [fst snd];
    destruct (analyze_section i sp h1) as [h2 an]; reflexivity.
Qed.

Lemma main_no_key i h :
  have_key i = false ->
  main i h = {| store := h; page := key_missing_page; uncaught := None |}.
Proof.
  unfold main, script, have_key, load_api_key, key_missing_page. intros Hk.
  destruct (env_key i) as [[|c k]|]; simpl in Hk |- *;
    try discriminate; destruct (typed_key i); try discriminate; reflexivity.
Qed.

Lemma show_history_ok h : Forall entry_ok h -> snd (show_history h) = None.
Proof.
  intros H. destruct h as [|e h']; [reflexivity|].
  unfold show_history.
  rewrite show_entries_ok by (apply Forall_rev; exact H). reflexivity.
Qed.

Lemma item_error_object d key :
  item_error (JObj d) key
  = if field_displayable d key then None else Some UnicodeEncodeError.
Proof.
  unfold item_error, field_displayable, py_in, py_getitem.
  now destruct (dict_get key d).
Qed.

Lemma show_analysis_object d :
  displayable_fields d = true -> show_analysis (JObj d) = done (object_widgets d).
Proof.
  unfold displayable_fields, field_displayable. intros H.
  apply andb_true_iff in H as [H Ha]. apply andb_true_iff in H as [He Hs].
  unfold show_analysis, object_widgets, when_in, with_item, py_in, py_getitem.
  destruct (dict_get k_emotion d); try rewrite He;
    destruct (dict_get k_summary d); try rewrite Hs;
    destruct (dict_get k_advice d); try rewrite Ha; reflexivity.
Qed.

(** X4: when the reply of an analysis decodes to a non-empty JSON object,
    whatever its keys, in which none of the three fields shown is a string
    with a surrogate code point (which the browser cannot be sent), the
    run shows exactly those of the three fields that the object has
    (emotion, summary, advice, in this order) between the two container
    tags, raises nothing while doing so, and appends one entry holding the
    text, the time and that object. *)
Theorem object_reply_is_shown_and_stored
    (i : run_input) (h : history) (d : list (text * json)) :
  have_key i = true ->
  clicked i = AnalyzeEntry ->
  nonblank (text_area i) = true ->
  run_analysis i = Some (JObj d) ->
  d <> [] ->
  displayable_fields d = true ->
  store (main i h)
    = h ++ [{| timestamp := now i; entry := text_area i; analysis := Some (JObj d) |}] /\
  page (main i h)
    = sidebar_widgets i h ++ object_widgets d ++ fst (show_history (store (main i h))) /\
  (Forall entry_ok h -> uncaught (main i h) = None).
Proof.
  intros Hk Hc Hn Ha Hd Hf.
  assert (Hs : store (main i h)
    = h ++ [{| timestamp := now i; entry := text_area i; analysis := Some (JObj d) |}]).
  { rewrite main_store. unfold next_store, action_entry.
    rewrite Hk, Hc, Hn, Ha, (show_analysis_object d Hf).
    destruct d; [congruence|reflexivity]. }
  rewrite Hs.
  rewrite (main_run i h Hk) by congruence.
  unfold save_section, analyze_section. rewrite Hc, Hn. cbn [fst snd].
  unfold run_analysis in Ha.
  destruct (get_ai_response (model i) (text_area i) (run_prompt i)) as [rj err].
  simpl in Ha. subst rj.
  rewrite (show_analysis_object d Hf).
  assert (Ht : truthy (JObj d) = true) by (destruct d; [congruence|reflexivity]).
  rewrite Ht. cbn [fst snd done completed page uncaught store].
  split; [reflexivity|]. split.
  - unfold and_then, done. cbn [fst snd]. now rewrite app_nil_r, <- app_assoc.
  - intros Hok. unfold and_then, done. cbn [fst snd].
    apply show_history_ok.
    apply Forall_app. split; [exact Hok|].
    constructor; [|constructor].
    apply analyzed_entry_ok. now rewrite (show_analysis_object d Hf).
Qed.

Lemma main_clear i h :
  have_key i = true -> clicked i = ClearHistory ->
  main i h = {| store := []; page := sidebar_widgets i []; uncaught := None |}.
Proof.
  unfold main, script, have_key, sidebar_widgets. intros Hk Hc. rewrite Hc.
  cbn [env_key typed_key file clicked released].
  destruct (load_api_key (env_key i) (typed_key i)) as [k kw]. simpl in Hk. subst k.
  destruct (load_system_prompt (file i)) as [sp pw]. cbn [negb fst snd].
  unfold save_section, analyze_section. cbn [clicked fst snd].
  unfold and_then, done, show_history. cbn [fst snd]. now rewrite !app_nil_r.
Qed.

Lemma analysis_of_reply i raw_text :
  model i (gui_request (run_prompt i) (text_area i)) = Reply raw_text ->
  get_ai_response (model i) (text_area i) (run_prompt i) = normalize_reply raw_text.
Proof. unfold get_ai_response. now intros ->. Qed.

(** X5: a reply that decodes to a value Python takes for false (an empty
    object, list or string, zero, false, null) is refused by the UI, which
    shows the unexpected-format error over the text None instead of the
    reply and stores nothing, while the CLI prints the same reply as
    Gemini's insight. *)
Theorem falsy_reply_is_refused_by_ui_only
    (i : run_input) (h : history) (raw_text : text) (v : json) :
  have_key i = true ->
  clicked i = AnalyzeEntry ->
  nonblank (text_area i) = true ->
  model i (gui_request (run_prompt i) (text_area i)) = Reply raw_text ->
  json_loads (clean_text raw_text) = Some v ->
  truthy v = false ->
  store (main i h) = h /\
  page (main i h)
    = sidebar_widgets i h ++ [unexpected_format; none_view] ++ fst (show_history h) /\
  cli_present raw_text =
    [[PText (nl ++ [128236] ++ lit " Gemini's Insight:" ++ nl)]; [PDump v]].
Proof.
  intros Hk Hc Hn Hm Hj Ht. apply json_loads_some in Hj.
  assert (Ha : get_ai_response (model i) (text_area i) (run_prompt i) = (Some v, None)).
  { rewrite (analysis_of_reply i raw_text Hm). unfold normalize_reply. now rewrite Hj. }
  rewrite (main_run i h Hk) by congruence.
  unfold save_section, analyze_section, cli_present.
  rewrite Hc, Hn, Hj. cbn [fst snd]. rewrite Ha, Ht.
  cbn [fst snd store page]. unfold and_then, done, none_view. cbn [fst snd].
  rewrite app_nil_r, <- app_assoc. repeat split.
Qed.

Lemma scalar_not_shown v :
  is_scalar v = true ->
  show_analysis v = ([says StMarkdown (html_div "response-container")], Some TypeError).
Proof. destruct v; try discriminate; reflexivity. Qed.

Lemma or_else_some a b e : or_else a b = Some e -> a = Some e \/ b = Some e.
Proof. destruct a; simpl; auto. Qed.

Lemma item_error_other v key e :
  (forall d, v <> JObj d) -> item_error v key = Some e -> e = TypeError.
Proof.
  intros Hv. unfold item_error, py_in, py_getitem.
  destruct v as [|b|z|f|t|l|d]; try congruence.
  - destruct (is_substring key t); congruence.
  - destruct (existsb _ l); congruence.
  - now elim (Hv d).
Qed.

(** What the display of an analysis can raise: [TypeError] on a value that
    is not an object, [UnicodeEncodeError] on an object. *)
Lemma show_analysis_raises v e :
  snd (show_analysis v) = Some e ->
  (e = TypeError /\ forall d, v <> JObj d) \/
  (e = UnicodeEncodeError /\ exists d, v = JObj d /\ displayable_fields d = false).
Proof.
  rewrite show_analysis_error. intros H.
  assert (Hobj : (forall d, v <> JObj d) \/ exists d, v = JObj d).
  { destruct v; try (left; discriminate). right. now eexists. }
  destruct Hobj as [Hv|[d ->]].
  - left. split; [|exact Hv].
    apply or_else_some in H as [H|H]; [apply or_else_some in H as [H|H]|];
      exact (item_error_other _ _ _ Hv H).
  - right. revert H. rewrite !item_error_object.
    destruct (field_displayable d k_emotion) eqn:E1,
      (field_displayable d k_summary) eqn:E2,
      (field_displayable d k_advice) eqn:E3;
      cbn [or_else]; intros H; try discriminate;
      injection H as <-;
      (split; [reflexivity|exists d; split; [reflexivity|]]);
      unfold displayable_fields; rewrite E1, E2, E3; reflexivity.
Qed.

Lemma show_analysis_undisplayable d :
  displayable_fields d = false -> snd (show_analysis (JObj d)) = Some UnicodeEncodeError.
Proof.
  rewrite show_analysis_error, !item_error_object. unfold displayable_fields.
  destruct (field_displayable d k_emotion), (field_displayable d k_summary),
    (field_displayable d k_advice); simpl; intros H; try discriminate; reflexivity.
Qed.

(** X6: when the reply of an analysis decodes to a value that passes
    [if response_json:] but whose display raises, the run ends with that
    exception uncaught: nothing is stored, and the page stops at what the
    display had shown, without the history section.  The display of a
    nonzero number or of true always raises, [TypeError] on the test
    [in]; that of an object raises when one of the three fields shown is
    a string with a surrogate code point, [UnicodeEncodeError]. *)
Theorem undisplayable_reply_raises
    (i : run_input) (h : history) (v : json) :
  have_key i = true ->
  clicked i = AnalyzeEntry ->
  nonblank (text_area i) = true ->
  run_analysis i = Some v ->
  truthy v = true ->
  (is_scalar v = true -> snd (show_analysis v) = Some TypeError) /\
  (forall d, v = JObj d -> displayable_fields d = false ->
     snd (show_analysis v) = Some UnicodeEncodeError) /\
  (forall e, snd (show_analysis v) = Some e ->
     store (main i h) = h /\
     uncaught (main i h) = Some e /\
     page (main i h) = sidebar_widgets i h ++ fst (show_analysis v)).
Proof.
  intros Hk Hc Hn Ha Ht. split; [|split].
  - intros Hs. now rewrite (scalar_not_shown v Hs).
  - intros d -> Hf. now apply show_analysis_undisplayable.
  - intros e Hd.
    rewrite (main_run i h Hk) by congruence.
    unfold save_section, analyze_section. rewrite Hc, Hn. cbn [fst snd].
    unfold run_analysis in Ha.
    destruct (get_ai_response (model i) (text_area i) (run_prompt i)) as [rj err].
    simpl in Ha. subst rj. rewrite Ht. unfold completed. rewrite Hd.
    cbn [fst snd store page uncaught]. unfold and_then, done. cbn [fst snd].
    rewrite Hd. cbn [fst snd]. now rewrite app_nil_r.
Qed.

(** X7: when the remote call of an analysis raises, the UI run does not:
    it shows the unexpected-format error over the text "Error: " followed
    by the message of the exception, and leaves the store as it was. *)
Theorem ui_remote_error_is_shown
    (i : run_input) (h : history) (msg : text) :
  have_key i = true ->
  clicked i = AnalyzeEntry ->
  nonblank (text_area i) = true ->
  model i (gui_request (run_prompt i) (text_area i)) = Failure msg ->
  store (main i h) = h /\
  page (main i h)
    = sidebar_widgets i h ++ [unexpected_format; raw_view (lit "Error: " ++ msg)]
      ++ fst (show_history h) /\
  (Forall entry_ok h -> uncaught (main i h) = None).
Proof.
  intros Hk Hc Hn Hm.
  rewrite (main_run i h Hk) by congruence.
  unfold save_section, analyze_section. rewrite Hc, Hn. cbn [fst snd].
  unfold get_ai_response. rewrite Hm.
  cbn [fst snd store page uncaught]. unfold and_then, done, raw_view. cbn [fst snd].
  rewrite app_nil_r, <- app_assoc. repeat split.
  intros Hok. now rewrite (show_history_ok h Hok).
Qed.

(** X8: a run has no key exactly when the environment variable is unset
    or empty and the sidebar input is empty; such a run shows the key
    warning, the key error and the hint, and does nothing else, whatever
    button was pressed: the store stays as it is, also on Clear History. *)
Theorem no_key_blocks_every_action (i : run_input) (h : history) :
  (have_key i = false <->
   (env_key i = None \/ env_key i = Some []) /\ typed_key i = []) /\
  (have_key i = false ->
   main i h = {| store := h; page := key_missing_page; uncaught := None |}).
Proof.
  split; [|apply main_no_key].
  unfold have_key, load_api_key.
  destruct (env_key i) as [[|c k]|]; destruct (typed_key i); simpl; split;
    try discriminate; try (intros [[H|H] H']; discriminate); auto.
Qed.

(** X9: a clear action that goes through behaves as a run on the empty
    store with no button pressed: the store is empty, the page is the
    sidebar with the count 0 and no history section, nothing is raised. *)
Theorem clear_is_a_fresh_run (i : run_input) (h : history) :
  have_key i = true ->
  clicked i = ClearHistory ->
  main i h = main (released i) [] /\
  main i h = {| store := []; page := sidebar_widgets i []; uncaught := None |}.
Proof.
  intros Hk Hc. rewrite (main_clear i h Hk Hc). split; [|reflexivity].
  rewrite (main_run (released i) []); [|exact Hk|discriminate].
  unfold save_section, analyze_section. cbn [clicked released fst snd].
  unfold and_then, done, show_history. cbn [fst snd].
  now rewrite !app_nil_r.
Qed.

(** X10: on a store built by runs of the script from the empty one, a run
    raises only in one case: an analysis with a key and a non-blank text
    whose reply decodes to a value that passes [if response_json:] and
    fails in the display.  The exception is then [TypeError], the value
    not being a JSON object, or [UnicodeEncodeError], the value being an
    object with a string that cannot be shown among its three fields.
    Saving, clearing, listing the history and every failure of the remote
    call or of the decoding raise nothing. *)
Theorem run_raises_only_in_the_display
    (runs : list run_input) (i : run_input) (e : exception) :
  uncaught (main i (session runs [])) = Some e ->
  have_key i = true /\
  clicked i = AnalyzeEntry /\
  nonblank (text_area i) = true /\
  exists v, run_analysis i = Some v /\ truthy v = true /\
            snd (show_analysis v) = Some e /\
            ((e = TypeError /\ forall d, v <> JObj d) \/
             (e = UnicodeEncodeError /\
              exists d, v = JObj d /\ displayable_fields d = false)).
Proof.
  assert (Hok : Forall entry_ok (session runs [])) by (apply session_ok; constructor).
  remember (session runs []) as h eqn:Eh. clear Eh runs.
  destruct (have_key i) eqn:Hk; [|now rewrite (main_no_key i h Hk)].
  destruct (clicked i) eqn:Hc;
    try (rewrite (main_clear i h Hk Hc); discriminate);
    rewrite (main_run i h Hk) by congruence;
    unfold save_section, analyze_section; rewrite Hc; cbn [fst snd uncaught].
  - unfold and_then, done. cbn [fst snd]. now rewrite (show_history_ok h Hok).
  - destruct (nonblank (text_area i)) eqn:Hn.
    2:{ unfold and_then, done. cbn [fst snd]. now rewrite (show_history_ok h Hok). }
    unfold run_analysis.
    destruct (get_ai_response (model i) (text_area i) (run_prompt i)) as [[v|] err].
    2:{ unfold and_then, done. cbn [fst snd]. now rewrite (show_history_ok h Hok). }
    destruct (truthy v) eqn:Ht.
    2:{ unfold and_then, done. cbn [fst snd]. now rewrite (show_history_ok h Hok). }
    unfold completed.
    destruct (snd (show_analysis v)) as [e'|] eqn:Hd; cbn [fst snd].
    + unfold and_then, done. cbn [fst snd]. rewrite Hd. cbn [fst snd].
      intros H; injection H as <-. repeat split.
      exists v. repeat split; try assumption.
      now apply show_analysis_raises.
    + unfold and_then, done. cbn [fst snd]. rewrite Hd. cbn [fst snd].
      rewrite show_history_ok; [discriminate|].
      apply Forall_app. split; [exact Hok|].
      constructor; [now apply analyzed_entry_ok|constructor].
  - destruct (nonblank (text_area i)); cbn [fst snd];
      unfold and_then, done; cbn [fst snd]; rewrite show_history_ok; try discriminate;
      try exact Hok.
    apply Forall_app. split; [exact Hok|]. constructor; [apply saved_entry_ok|constructor].
Qed.

(** X11: a run consults the remote model on one request at most: the
    combined prompt of the loaded system prompt and the text area, and
    this only for an analysis with a key and a non-blank text.  A model
    that answers this request alike gives the same run; for any other run
    the model does not matter. *)
Theorem model_is_consulted_on_one_request
    (i : run_input) (h : history) (m : request -> completion) :
  (have_key i = true -> clicked i = AnalyzeEntry -> nonblank (text_area i) = true ->
   m (gui_request (run_prompt i) (text_area i))
   = model i (gui_request (run_prompt i) (text_area i))) ->
  main (with_model m i) h = main i h.
Proof.
  intros Hm.
  destruct (have_key i) eqn:Hk.
  2:{ now rewrite (main_no_key i h Hk), (main_no_key (with_model m i) h Hk). }
  destruct (clicked i) eqn:Hc.
  - rewrite (main_run i h Hk), (main_run (with_model m i) h Hk)
      by (cbn [clicked with_model]; congruence).
    unfold save_section, analyze_section. cbn [clicked with_model]. rewrite Hc.
    reflexivity.
  - now rewrite (main_clear i h Hk Hc), (main_clear (with_model m i) h Hk Hc).
  - rewrite (main_run i h Hk), (main_run (with_model m i) h Hk)
      by (cbn [clicked with_model]; congruence).
    unfold save_section, analyze_section.
    cbn [clicked with_model text_area now model]. rewrite Hc. cbn [fst snd].
    destruct (nonblank (text_area i)) eqn:Hn; [|reflexivity].
    unfold get_ai_response, run_prompt in *.
    cbn [file with_model]. rewrite (Hm eq_refl eq_refl eq_refl). reflexivity.
  - rewrite (main_run i h Hk), (main_run (with_model m i) h Hk)
      by (cbn [clicked with_model]; congruence).
    unfold save_section, analyze_section. cbn [clicked with_model]. rewrite Hc.
    reflexivity.
Qed.

(** ** Further properties of the session *)

Lemma session_app a b h : session (a ++ b) h = session b (session a h).
Proof. revert h. induction a as [|i a IH]; intros h; simpl; [reflexivity|apply IH]. Qed.

Lemma next_store_unless_clear i h :
  clears i = false ->
  next_store i h = if successful i then h ++ [action_entry i] else h.
Proof.
  unfold clears, successful, next_store.
  destruct (have_key i); [|reflexivity]. cbn [andb].
  destruct (clicked i); try discriminate; intros _.
  - now destruct (nonblank (text_area i)).
  - destruct (nonblank (text_area i)); [|reflexivity]. cbn [andb].
    now destruct (run_analysis i).
  - now destruct (nonblank (text_area i)).
Qed.

(** X12: as long as no clear action goes through, the store only grows at
    its end: after any runs it is the store before them followed by the
    entries of those runs that were successful save or analyze actions,
    in their order.  Entries are never changed, moved or dropped, and a
    run that fails (blank text, no key, remote error, undecodable or
    refused reply, exception) adds nothing. *)
Theorem session_without_clear (runs : list run_input) (h : history) :
  forallb (fun i => negb (clears i)) runs = true ->
  session runs h = h ++ map action_entry (filter successful runs) /\
  length (session runs h) = (length h + length (filter successful runs))%nat.
Proof.
  intros H.
  assert (Hs : session runs h = h ++ map action_entry (filter successful runs)).
  { revert h. induction runs as [|i rest IH]; intros h; simpl.
    - now rewrite app_nil_r.
    - simpl in H. apply andb_true_iff in H as [Hi Hrest].
      apply negb_true_iff in Hi.
      rewrite main_store, (next_store_unless_clear i h Hi), (IH Hrest).
      destruct (successful i); [|reflexivity].
      simpl. now rewrite <- app_assoc. }
  split; [exact Hs|]. rewrite Hs, length_app, length_map. reflexivity.
Qed.

(** X13: a clear action that goes through erases the past: the store
    after any runs is the store that the runs after the last such clear
    build from the empty store. *)
Theorem session_after_clear
    (before after : list run_input) (c : run_input) (h : history) :
  clears c = true ->
  session (before ++ c :: after) h = session after [].
Proof.
  intros Hc. rewrite session_app. simpl.
  rewrite main_store. unfold clears in Hc. unfold next_store.
  apply andb_true_iff in Hc as [Hk Hc]. rewrite Hk.
  destruct (clicked c); try discriminate. reflexivity.
Qed.

Lemma visible_is_nonblank t :
  (exists c, In c t /\ is_space c = false) -> nonblank t = true.
Proof.
  intros [c [Hin Hc]]. unfold nonblank, strip.
  assert (Hl : exists x r, lstrip t = x :: r).
  { induction t as [|y t IH]; [destruct Hin|]. simpl.
    destruct (is_space y) eqn:Ey; [|now exists y, t].
    destruct Hin as [->|Hin]; [congruence|now apply IH]. }
  destruct Hl as [x [r Hl]]. rewrite Hl.
  destruct (rstrip_head x r (lstrip_head t x r Hl)) as [r' ->]. reflexivity.
Qed.

(** X14: with a key, the save action stores the text exactly when it has a
    character that is not whitespace; the entry then holds the text as
    typed, untrimmed, with the time of the run and no analysis.  A text of
    whitespace only leaves the store as it is. *)
Theorem save_stores_iff_visible (i : run_input) (h : history) :
  have_key i = true ->
  clicked i = SaveEntry ->
  ((exists c, In c (text_area i) /\ is_space c = false) <->
   store (main i h)
   = h ++ [{| timestamp := now i; entry := text_area i; analysis := None |}]) /\
  ((forall c, In c (text_area i) -> is_space c = true) -> store (main i h) = h).
Proof.
  intros Hk Hc. rewrite main_store. unfold next_store, action_entry.
  rewrite Hk, Hc. split; [split|].
  - intros Hv. now rewrite (visible_is_nonblank _ Hv).
  - destruct (nonblank (text_area i)) eqn:Hn; [intros _; now apply nonblank_has_visible|].
    intros H. apply (f_equal (@length _)) in H. rewrite length_app in H. simpl in H. lia.
  - intros Hall. destruct (nonblank (text_area i)) eqn:Hn; [|reflexivity].
    apply nonblank_has_visible in Hn as [c [Hin Hs]].
    rewrite (Hall c Hin) in Hs. discriminate.
Qed.

Lemma page_starts_with_sidebar i h :
  have_key i = true -> clicked i <> ClearHistory ->
  exists rest, page (main i h) = sidebar_widgets i h ++ rest.
Proof.
  intros Hk Hc. rewrite (main_run i h Hk Hc). cbn [page].
  destruct (save_section i h) as [h1 sv]. cbn [fst snd].
  destruct (analyze_section i (run_prompt i) h1) as [h2 [an ok]]. cbn [fst snd].
  unfold and_then, done. cbn [fst snd].
  destruct ok as [e|]; cbn [fst snd].
  - exists (sv ++ an). now rewrite <- !app_assoc.
  - destruct (show_history h2) as [hw hok].
    exists (sv ++ an ++ hw). cbn [fst]. now rewrite <- !app_assoc.
Qed.

(** X15: the sidebar count is taken before the action of the run: after a
    successful save or analyze action the page says "Entries today: n"
    for the n entries there were before, one less than the store now
    holds and than the history section of the same page lists. *)
Theorem entries_count_lags_behind (i : run_input) (h : history) :
  successful i = true ->
  In (Elem SidebarInfo [PText (lit "Entries today: ");
                        PInt (Z.of_nat (length (store (main i h))) - 1)])
     (page (main i h)) /\
  length (store (main i h)) = S (length h).
Proof.
  intros Hs.
  assert (Hlen : length (store (main i h)) = S (length h)).
  { rewrite (successful_appends i h Hs), length_app. simpl. lia. }
  split; [|exact Hlen].
  unfold successful in Hs.
  destruct (have_key i) eqn:Hk; [|discriminate].
  assert (Hc : clicked i <> ClearHistory).
  { intros Hc. rewrite Hc in Hs. rewrite andb_false_r in Hs. discriminate. }
  destruct (page_starts_with_sidebar i h Hk Hc) as [rest ->].
  rewrite Hlen. unfold sidebar_widgets.
  replace (Z.of_nat (S (length h)) - 1)%Z with (Z.of_nat (length h)) by lia.
  rewrite !in_app_iff. left. right. right. now left.
Qed.

(** ** Further properties of the command-line loop *)




(** X17: the loop ends normally only when a line typed is exit; without
    one it ends with [EOFError] once the input is used up, unless a remote
    call or [json.loads] raised before.  It never ends with [TypeError]:
    whatever a reply decodes to, the CLI prints it. *)
Theorem cli_loop_endings
    (model : request -> completion) (Sys_Prompt : text) (typed : list text) :
  (snd (cli_loop model Sys_Prompt typed) = Ended ->
   Exists (fun u => is_exit u = true) typed) /\
  (snd (cli_loop model Sys_Prompt typed) = Crashed EOFError ->
   Forall (fun u => is_exit u = false) typed) /\
  snd (cli_loop model Sys_Prompt typed) <> Crashed TypeError.
Proof.
  induction typed as [|u typed [IH1 [IH2 IH3]]]; simpl.
  - repeat split; try discriminate. constructor.
  - unfold cli_iteration.
    destruct (is_exit u) eqn:Hu.
    + simpl. repeat split; try discriminate. intros _. now left.
    + destruct (model (cli_request Sys_Prompt u)) as [raw|msg].
      * assert (Hnext :
          (snd (let (more, e) := cli_loop model Sys_Prompt typed in
                (cli_present raw ++ more, e)) = Ended ->
           Exists (fun u => is_exit u = true) (u :: typed)) /\
          (snd (let (more, e) := cli_loop model Sys_Prompt typed in
                (cli_present raw ++ more, e)) = Crashed EOFError ->
           Forall (fun u => is_exit u = false) (u :: typed)) /\
          snd (let (more, e) := cli_loop model Sys_Prompt typed in
               (cli_present raw ++ more, e)) <> Crashed TypeError).
        { destruct (cli_loop model Sys_Prompt typed) as [more e]. simpl in *.
          repeat split.
          - intros H. right. now apply IH1.
          - intros H. constructor; [exact Hu|now apply IH2].
          - exact IH3. }
        destruct (decode (clean_text raw)) as [v|[|e msg]] eqn:Hd;
          try exact Hnext.
        apply decode_raises, expected_raised in Hd as [->| ->];
          simpl; repeat split; discriminate.
      * simpl. repeat split; discriminate.
Qed.

Lemma ascii_lower_letter c k :
  97 <= k -> k <= 122 ->
  (ascii_lower c =? k) = true <-> c = k \/ c = k - 32.
Proof.
  intros H1 H2. unfold ascii_lower. rewrite N.eqb_eq.
  destruct ((65 <=? c) && (c <=? 90)) eqn:E.
  - apply andb_true_iff in E as [Ea Eb]. apply N.leb_le in Ea, Eb. lia.
  - apply andb_false_iff in E as [E|E]; apply N.leb_gt in E; lia.
Qed.

(** X18: the session ends on the four letters of exit in any mix of upper
    and lower case, and on nothing else: a line with a space before or
    after the word, or with any other character, is sent to the model as
    a journal entry. *)
Theorem is_exit_exactly (user_input : text) :
  is_exit user_input = true <->
  exists e x i t,
    user_input = [e; x; i; t] /\
    (e = 101 \/ e = 69) /\ (x = 120 \/ x = 88) /\
    (i = 105 \/ i = 73) /\ (t = 116 \/ t = 84).
Proof.
  unfold is_exit.
  change (lit "exit") with [101; 120; 105; 116].
  split.
  - destruct user_input as [|e [|x [|i [|t [|? ?]]]]]; simpl; try discriminate;
      try (rewrite ?andb_false_r; discriminate).
    rewrite andb_true_r. intros H.
    apply andb_true_iff in H as [He H]. apply andb_true_iff in H as [Hx H].
    apply andb_true_iff in H as [Hi Ht].
    apply ascii_lower_letter in He, Hx, Hi, Ht; try lia.
    exists e, x, i, t. repeat split; assumption.
  - intros [e [x [i [t [-> [He [Hx [Hi Ht]]]]]]]]. simpl.
    rewrite andb_true_r.
    repeat (apply andb_true_iff; split);
      apply ascii_lower_letter; try lia; assumption.
Qed.

(** ** Further properties of the Request Builder *)

(** X19: the journal text goes into the combined prompt as typed, between
    the triple quotes, nothing being escaped or cut; with the same system
    prompt, two journal texts that differ give prompts that differ, in
    both front ends. *)
Theorem combined_prompt_keeps_the_text (system_prompt u1 u2 : text) :
  (exists before after,
     forall u, cli_combined_prompt system_prompt u = before ++ u ++ after) /\
  (exists before after,
     forall u, gui_combined_prompt system_prompt u = before ++ u ++ after) /\
  (cli_combined_prompt system_prompt u1 = cli_combined_prompt system_prompt u2 ->
   u1 = u2) /\
  (gui_combined_prompt system_prompt u1 = gui_combined_prompt system_prompt u2 ->
   u1 = u2).
Proof.
  split; [|split; [|split]].
  - exists (system_prompt ++ nl ++ nl ++ lit "User Journal Entry:" ++ nl ++ triple_quote).
    eexists. intros u. unfold cli_combined_prompt.
    repeat rewrite <- app_assoc. reflexivity.
  - exists (system_prompt ++ nl ++ nl ++ lit "User Journal Entry:" ++ nl ++ triple_quote).
    eexists. intros u. unfold gui_combined_prompt.
    repeat rewrite <- app_assoc. reflexivity.
  - unfold cli_combined_prompt. intros H.
    do 6 apply app_inv_head in H. now apply app_inv_tail in H.
  - unfold gui_combined_prompt. intros H.
    do 6 apply app_inv_head in H. now apply app_inv_tail in H.
Qed.

(** ** Replies that cannot be JSON *)

Lemma strip_head s c t : strip s = c :: t -> is_space c = false.
Proof.
  unfold strip. destruct (lstrip s) as [|x r] eqn:E; [discriminate|].
  pose proof (lstrip_head s x r E) as Hx.
  destruct (rstrip_head x r Hx) as [r' ->].
  intros H. now injection H as <- _.
Qed.

Lemma literal_head_mismatch p v (c : char) (t : text) (k : char) (p' : text) :
  lit p = k :: p' -> (k =? c) = false -> literal p v (c :: t) = None.
Proof. unfold literal. intros -> H. simpl. now rewrite H. Qed.

Lemma scan_once_bad_start n room c t :
  can_start_value c = false -> scan_once (S n) room (c :: t) = Bad JSONDecodeError.
Proof.
  unfold can_start_value. intros H.
  apply orb_false_iff in H as [H HI]. apply orb_false_iff in H as [H HN].
  apply orb_false_iff in H as [H Hf]. apply orb_false_iff in H as [H Ht].
  apply orb_false_iff in H as [H Hn]. apply orb_false_iff in H as [H Hd].
  apply orb_false_iff in H as [H Hm]. apply orb_false_iff in H as [H Hk].
  apply orb_false_iff in H as [Hq Hb].
  rewrite scan_once_S, Hq, Hb, Hk.
  assert (H48 : (c =? 48) = false).
  { destruct (N.eqb_spec c 48) as [->|]; [discriminate|reflexivity]. }
  rewrite (literal_head_mismatch "null" JNull c t 110 (lit "ull"))
    by first [reflexivity | rewrite N.eqb_sym; assumption].
  rewrite (literal_head_mismatch "true" (JBool true) c t 116 (lit "rue"))
    by first [reflexivity | rewrite N.eqb_sym; assumption].
  rewrite (literal_head_mismatch "false" (JBool false) c t 102 (lit "alse"))
    by first [reflexivity | rewrite N.eqb_sym; assumption].
  rewrite (literal_head_mismatch "NaN" (JFloat FNaN) c t 78 (lit "aN"))
    by first [reflexivity | rewrite N.eqb_sym; assumption].
  rewrite (literal_head_mismatch "Infinity" (JFloat (FInf false)) c t 73 (lit "nfinity"))
    by first [reflexivity | rewrite N.eqb_sym; assumption].
  rewrite (literal_head_mismatch "-Infinity" (JFloat (FInf true)) c t 45 (lit "Infinity"))
    by first [reflexivity | rewrite N.eqb_sym; assumption].
  unfold match_number, match_sign, match_int.
  now rewrite Hm, H48, Hd.
Qed.

(** X20: a reply whose cleaned text is empty (an empty reply, or nothing
    but fences and whitespace) or starts with a character no JSON value
    starts with (prose, as a rule) is never decoded: the UI gets the
    failure signal with the raw reply, the CLI prints its warning and the
    raw reply. *)
Theorem reply_that_cannot_be_json (raw_text : text) :
  (clean_text raw_text = [] \/
   exists c t, clean_text raw_text = c :: t /\ can_start_value c = false) ->
  json_loads (clean_text raw_text) = None /\
  normalize_reply raw_text = (None, Some raw_text) /\
  cli_present raw_text = cli_unexpected raw_text.
Proof.
  intros H.
  assert (Hd : decode (clean_text raw_text) = Raises JSONDecodeError).
  { destruct H as [->|[c [t [E Hc]]]]; [reflexivity|].
    pose proof (strip_head _ _ _ E) as Hs. rewrite E.
    unfold decode.
    assert (Hw : is_json_ws c = false).
    { destruct (is_json_ws c) eqn:Ew; [|reflexivity].
      apply json_ws_is_space in Ew. congruence. }
    cbn [skip_ws]. rewrite Hw. now rewrite scan_once_bad_start. }
  unfold json_loads, normalize_reply, cli_present, cli_unexpected. rewrite Hd.
  repeat split.
Qed.

(** ** Further properties of the Prompt Loader and of the store *)

Lemma sidebar_in_page i h w :
  have_key i = true ->
  In w (snd (load_system_prompt (file i))) ->
  In w (page (main i h)).
Proof.
  intros Hk Hw.
  assert (Hs : forall h', In w (sidebar_widgets i h')).
  { intros h'. unfold sidebar_widgets. rewrite !in_app_iff. right. now left. }
  destruct (clicked i) eqn:Hc;
    try (destruct (page_starts_with_sidebar i h Hk) as [rest ->];
         [congruence|rewrite in_app_iff; left; apply Hs]).
  rewrite (main_clear i h Hk Hc). apply Hs.
Qed.

(** X21: a prompt file that exists and cannot be read never stops a run:
    every run with a key, whatever the button, shows the sidebar error
    with the message of the exception and works with the built-in default
    prompt; the CLI prints the error and runs its loop with its own
    default.  A file that can be read is used as it is, even when empty,
    and no error is shown for it. *)
Theorem unreadable_prompt_file_is_reported (i : run_input) (h : history) (err : text) :
  have_key i = true ->
  (file i = Unreadable err ->
   run_prompt i = gui_default_prompt /\
   In (Elem SidebarError [PText (lit "Error loading prompt file: "); PText err])
      (page (main i h))) /\
  (forall model typed,
     cli_main (Unreadable err) model typed =
       ([PText (lit "Error:"); PText (lit " "); PText err]
        :: [PText (nl ++ lit "---AI Mental Health Journal Assistant---" ++ nl)]
        :: fst (cli_loop model cli_default_prompt typed),
        snd (cli_loop model cli_default_prompt typed))) /\
  (forall content, file i = Readable content ->
     run_prompt i = content /\
     sidebar_widgets i h
     = snd (load_api_key (env_key i) (typed_key i))
       ++ [Elem SidebarInfo [PText (lit "Entries today: "); PInt (Z.of_nat (length h))]]).
Proof.
  intros Hk. split; [|split].
  - intros Hf. split; [unfold run_prompt; now rewrite Hf|].
    apply sidebar_in_page; [exact Hk|]. rewrite Hf. now left.
  - intros model typed. unfold cli_main. simpl.
    now destruct (cli_loop model cli_default_prompt typed).
  - intros content Hf. unfold run_prompt, sidebar_widgets. rewrite Hf. split; reflexivity.
Qed.

Lemma next_store_cases i h :
  next_store i h = h \/ next_store i h = [] \/
  (successful i = true /\ next_store i h = h ++ [action_entry i]).
Proof.
  unfold next_store, successful.
  destruct (have_key i); [|now left]. cbn [andb].
  destruct (clicked i); [now left|now right; left| |].
  - destruct (nonblank (text_area i)); [|now left]. cbn [andb].
    destruct (run_analysis i) as [v|]; [|now left].
    destruct (truthy v && completed (show_analysis v)); [|now left].
    right; right. now split.
  - destruct (nonblank (text_area i)); [|now left].
    right; right. now split.
Qed.

Lemma session_provenance runs : forall h e,
  In e (session runs h) ->
  In e h \/ exists i, In i runs /\ successful i = true /\ e = action_entry i.
Proof.
  induction runs as [|i rest IH]; intros h e He; simpl in He; [now left|].
  apply IH in He as [He|[j [Hj [Hs Hej]]]].
  - rewrite main_store in He.
    destruct (next_store_cases i h) as [E|[E|[Hs E]]]; rewrite E in He.
    + now left.
    + destruct He.
    + apply in_app_iff in He as [He|[<-|[]]]; [now left|].
      right. exists i. repeat split; [now left|exact Hs].
  - right. exists j. repeat split; [now right|exact Hs|exact Hej].
Qed.

(** X22: nothing enters the store but what a successful action put there:
    every entry of a store built from the empty one holds the text and
    the time of one of the runs, a successful save or analyze action, and
    as analysis either nothing (a save) or the very value the reply of
    that run decoded to, which passed [if response_json:]; no analysis is
    made up. *)
Theorem store_entries_come_from_actions (runs : list run_input) (e : journal_entry) :
  In e (session runs []) ->
  exists i,
    In i runs /\ successful i = true /\
    timestamp e = now i /\ entry e = text_area i /\
    ((clicked i = SaveEntry /\ analysis e = None) \/
     (clicked i = AnalyzeEntry /\
      exists v, analysis e = Some v /\ run_analysis i = Some v /\ truthy v = true)).
Proof.
  intros He. apply session_provenance in He as [[]|[i [Hi [Hs ->]]]].
  exists i. repeat split; try assumption.
  unfold successful in Hs. unfold action_entry. cbn [analysis].
  apply andb_true_iff in Hs as [_ Hs].
  destruct (clicked i); try discriminate.
  - right. split; [reflexivity|].
    destruct (run_analysis i) as [v|]; [|discriminate].
    apply andb_true_iff in Hs as [Ht _]. now exists v.
  - left. now split.
Qed.

(** X23: a run in which no button is pressed (a rerun after typing, say)
    only reads: the store stays as it is, and the page is the sidebar
    followed by the history section; on a store built by the script it
    raises nothing.  So entries are not added twice when the page is
    refreshed. *)
Theorem no_click_run_is_read_only (i : run_input) (h : history) :
  have_key i = true ->
  clicked i = NoClick ->
  store (main i h) = h /\
  page (main i h) = sidebar_widgets i h ++ fst (show_history h) /\
  (Forall entry_ok h -> uncaught (main i h) = None) /\
  store (main i (store (main i h))) = store (main i h).
Proof.
  intros Hk Hc.
  assert (Hs : forall h', store (main i h') = h').
  { intros h'. rewrite main_store. unfold next_store. now rewrite Hk, Hc. }
  split; [apply Hs|]. split; [|split; [|now rewrite !Hs]].
  - rewrite (main_run i h Hk) by congruence.
    unfold save_section, analyze_section. rewrite Hc. cbn [fst snd page].
    unfold and_then, done. cbn [fst snd]. now rewrite !app_nil_r.
  - intros Hok. rewrite (main_run i h Hk) by congruence.
    unfold save_section, analyze_section. rewrite Hc. cbn [fst snd uncaught].
    unfold and_then, done. cbn [fst snd]. now rewrite (show_history_ok h Hok).
Qed.

(** ** Further properties of the decoder's exceptions *)

(** X24: besides [JSONDecodeError], [json.loads] raises nothing but
    [RecursionError] (a container nested too deep) and [ValueError] (an
    integer of more digits than the interpreter allows).  On these the UI
    returns the failure signal with "Error: " and the message of the
    exception, and goes on; the CLI prints nothing for the reply and its
    loop ends with the exception, whatever is typed next. *)
Theorem json_loads_raises_only_expected
    (raw_text : text) (e : exception) (msg : text) :
  decode (clean_text raw_text) = Raises (Raised e msg) ->
  (e = RecursionError \/ e = ValueError) /\
  json_loads (clean_text raw_text) = None /\
  normalize_reply raw_text = (None, Some (lit "Error: " ++ msg)) /\
  (forall model user_input system_prompt,
     model (gui_request system_prompt user_input) = Reply raw_text ->
     get_ai_response model user_input system_prompt
     = (None, Some (lit "Error: " ++ msg))) /\
  cli_present raw_text = [] /\
  (forall model Sys_Prompt user_input rest,
     is_exit user_input = false ->
     model (cli_request Sys_Prompt user_input) = Reply raw_text ->
     cli_loop model Sys_Prompt (user_input :: rest) = ([], Crashed e)).
Proof.
  intros H. pose proof (decode_raises _ _ H) as He.
  split; [now apply expected_raised in He|].
  unfold json_loads, get_ai_response, normalize_reply, cli_present. rewrite H.
  repeat split.
  - intros model user_input system_prompt ->. now rewrite H.
  - intros model Sys_Prompt user_input rest Hx Hm.
    simpl. unfold cli_iteration. now rewrite Hx, Hm, H.
Qed.

(** X25: a reply of 640 characters at most raises nothing but
    [JSONDecodeError] in an interpreter that leaves the scanner 900
    levels, as one with the default recursion limit does: each level
    entered and each digit of an integer is a character of the reply, and
    [int] does not look at its limit for so few digits.  For such a reply
    a failed decoding is always answered with the raw reply, in both front
    ends. *)
Theorem short_reply_raises_nothing_else (raw_text : text) :
  (length raw_text <= 640)%nat ->
  (900 <= recursion_room)%nat ->
  cli_handles raw_text = true /\
  (json_loads (clean_text raw_text) = None ->
   decode (clean_text raw_text) = Raises JSONDecodeError /\
   normalize_reply raw_text = (None, Some raw_text) /\
   cli_present raw_text = cli_unexpected raw_text).
Proof.
  intros Hl Hr.
  assert (Hc : (length (clean_text raw_text) <= 640)%nat).
  { pose proof (subseq_length _ _ (clean_text_subseq raw_text)). lia. }
  assert (Hd : forall f, decode (clean_text raw_text) = Raises f -> f = JSONDecodeError).
  { intros f. unfold decode.
    pose proof (skip_ws_length (clean_text raw_text)) as Hw.
    destruct (scan_once (S (length (clean_text raw_text))) recursion_room
                        (skip_ws (clean_text raw_text))) as [v r|f0|] eqn:E.
    - destruct (skip_ws r); [discriminate|]. now intros H; injection H as <-.
    - intros H; injection H as <-.
      apply (scan_once_short _ _ _ _) in E; [exact E|lia|lia].
    - now intros H; injection H as <-. }
  split.
  - unfold cli_handles.
    destruct (decode (clean_text raw_text)) as [v|[|e msg]]; try reflexivity.
    now specialize (Hd _ eq_refl).
  - intros Hn. apply json_loads_none in Hn as [f Hf].
    pose proof (Hd f Hf) as ->.
    unfold normalize_reply, cli_present, cli_unexpected. rewrite Hf. repeat split.
Qed.

Section ContainerOk.
Variables scan scan' : text -> res json.
Hypothesis scan_ok : forall s v r, scan s = Ok v r -> scan' s = Ok v r.

Lemma array_items_ok k : forall values s v r,
  array_items scan k values s = Ok v r -> array_items scan' k values s = Ok v r.
Proof.
  induction k as [|k IH]; intros values s v r H; [discriminate|].
  simpl in H |- *.
  destruct (scan s) as [value r1|f1|] eqn:E; try discriminate.
  rewrite (scan_ok _ _ _ E).
  destruct (skip_ws r1) as [|c r']; [discriminate|].
  destruct (c =? 93); [exact H|].
  destruct (c =? 44); [now apply IH|discriminate].
Qed.

Lemma object_items_ok k : forall pairs s v r,
  object_items scan k pairs s = Ok v r -> object_items scan' k pairs s = Ok v r.
Proof.
  induction k as [|k IH]; intros pairs s v r H; [discriminate|].
  simpl in H |- *.
  destruct (scanstring s) as [key r0|f0|]; try discriminate.
  destruct (skip_ws r0) as [|c r1]; [discriminate|].
  destruct (c =? 58); [|discriminate].
  destruct (scan (skip_ws r1)) as [value r2|f2|] eqn:E; try discriminate.
  rewrite (scan_ok _ _ _ E).
  destruct (skip_ws r2) as [|c2 r3]; [discriminate|].
  destruct (c2 =? 125); [exact H|].
  destruct (c2 =? 44); [|discriminate].
  destruct (skip_ws r3) as [|q r4]; [discriminate|].
  destruct (q =? dquote); [now apply IH|discriminate].
Qed.
End ContainerOk.

End Properties.

(** ** Two interpreters *)

Section MoreRoom.
Variables py py' : interpreter.
Hypothesis more_digits :
  @int_max_str_digits py' = 0%nat \/
  (0 < @int_max_str_digits py <= @int_max_str_digits py')%nat.

Lemma number_result_more m r0 v r :
  @number_result py m r0 = Ok v r -> @number_result py' m r0 = Ok v r.
Proof.
  unfold number_result.
  destruct (nm_frac m), (nm_exp m); try (intros H; exact H).
  destruct (640 <? length (nm_int m))%nat eqn:E6; [|intros H; exact H].
  cbn [andb].
  destruct ((0 <? @int_max_str_digits py)
            && (@int_max_str_digits py <? length (nm_int m)))%nat
    eqn:E; [discriminate|].
  intros H.
  destruct ((0 <? @int_max_str_digits py')
            && (@int_max_str_digits py' <? length (nm_int m)))%nat eqn:E';
    [|exact H].
  exfalso.
  apply andb_true_iff in E' as [E1 E2]. apply Nat.ltb_lt in E1, E2.
  apply andb_false_iff in E as [E|E]; apply Nat.ltb_ge in E; lia.
Qed.

Lemma scan_once_more n : forall room room' s v r,
  (room <= room')%nat ->
  @scan_once py n room s = Ok v r -> @scan_once py' n room' s = Ok v r.
Proof.
  induction n as [|n IH]; intros room room' s v r Hr H; [discriminate|].
  rewrite (@scan_once_S py) in H. rewrite (@scan_once_S py').
  destruct s as [|c t]; [discriminate|].
  destruct (c =? dquote); [exact H|].
  destruct (c =? 123).
  { destruct room as [|room]; [discriminate|].
    destruct room' as [|room']; [lia|].
    assert (Hs : forall s0 v0 r0, @scan_once py n room s0 = Ok v0 r0 ->
                                  @scan_once py' n room' s0 = Ok v0 r0)
      by (intros s0 v0 r0; apply IH; lia).
    unfold parse_object in *.
    destruct (skip_ws t) as [|c' z]; [discriminate|].
    destruct (c' =? 125); [exact H|].
    destruct (c' =? dquote); [|discriminate].
    exact (object_items_ok _ _ Hs _ _ _ _ _ H). }
  destruct (c =? 91).
  { destruct room as [|room]; [discriminate|].
    destruct room' as [|room']; [lia|].
    assert (Hs : forall s0 v0 r0, @scan_once py n room s0 = Ok v0 r0 ->
                                  @scan_once py' n room' s0 = Ok v0 r0)
      by (intros s0 v0 r0; apply IH; lia).
    unfold parse_array in *.
    destruct (skip_ws t) as [|c' z];
      [exact (array_items_ok _ _ Hs _ _ _ _ _ H)|].
    destruct (c' =? 93); [exact H|].
    exact (array_items_ok _ _ Hs _ _ _ _ _ H). }
  repeat match goal with
  | |- context [match literal ?p ?x ?s with _ => _ end] =>
      destruct (literal p x s); [exact H|]
  | |- context [match match_number ?s with _ => _ end] =>
      destruct (match_number s) as [[m r']|]; [now apply number_result_more|]
  end.
  exact H.
Qed.

End MoreRoom.

(** X26: the limits of the interpreter only refuse.  What [json.loads]
    decodes under one interpreter it decodes to the same value under any
    interpreter that leaves the scanner at least as many levels and has
    no limit on the digits of an integer, or one at least as high. *)
Theorem more_room_decodes_the_same (py py' : interpreter) (s : text) (v : json) :
  (@recursion_room py <= @recursion_room py')%nat ->
  (@int_max_str_digits py' = 0%nat \/
   (0 < @int_max_str_digits py <= @int_max_str_digits py')%nat) ->
  @json_loads py s = Some v -> @json_loads py' s = Some v.
Proof.
  intros Hr Hd. rewrite (@json_loads_some py), (@json_loads_some py').
  unfold decode.
  destruct (@scan_once py (S (length s)) (@recursion_room py) (skip_ws s))
    as [a r|f|] eqn:E; try discriminate.
  now rewrite (scan_once_more py py' Hd _ _ _ _ _ _ Hr E).
Qed.


(* ================================================================== *)
(** * The theorems on sample runs *)
(* ================================================================== *)

(** The runs below are those of an interpreter with the default limits. *)
#[local] Existing Instance cpython_default.




Lemma history_store_witness :
  length (session [sample_run SaveEntry anxious prose_reply (lit "2024-05-01 09:00:00");
                   sample_run AnalyzeEntry anxious fenced_reply (lit "2024-05-01 09:05:00")]
                  []) = 2%nat.
Proof.
  destruct history_store_append_and_clear as [H _].
  apply (H [sample_run SaveEntry anxious prose_reply (lit "2024-05-01 09:00:00");
            sample_run AnalyzeEntry anxious fenced_reply (lit "2024-05-01 09:05:00")]).
  vm_compute. reflexivity.
Defined.

Lemma missing_prompt_file_witness :
  run_prompt (sample_run NoClick [] prose_reply []) = gui_default_prompt.
Proof.
  destruct (missing_prompt_file_gives_default
              (lit "[Errno 2] No such file or directory: 'prompts/sys_prompts.txt'"))
    as [_ [_ [_ H]]].
  apply H. reflexivity.
Defined.




(** The combined prompts of the two front ends differ on the same inputs. *)
Lemma front_ends_prompts_differ :
  cli_combined_prompt cli_default_prompt anxious
    <> gui_combined_prompt cli_default_prompt anxious.
Proof.
  intros H. apply (f_equal (@length char)) in H. vm_compute in H. discriminate.
Qed.

Lemma history_listing_witness :
  exists listing,
    map label_timestamp listing
    = [Some (lit "2024-05-01 09:05:00"); Some (lit "2024-05-01 09:00:00")].
Proof.
  destruct (history_is_listed_newest_first
              [sample_run SaveEntry anxious prose_reply (lit "2024-05-01 09:00:00");
               sample_run AnalyzeEntry anxious fenced_reply (lit "2024-05-01 09:05:00")])
    as [listing [_ [_ H]]].
  - vm_compute. discriminate.
  - exists listing. exact H.
Defined.

Lemma blank_input_witness :
  store (main (sample_run SaveEntry (lit "  ") prose_reply (lit "2024-05-01 09:00:00")) []) = [].
Proof.
  destruct blank_input_is_never_stored as [H _].
  destruct (H (sample_run SaveEntry (lit "  ") prose_reply (lit "2024-05-01 09:00:00")) [])
    as [Hsave _]; [reflexivity|reflexivity|].
  apply Hsave. reflexivity.
Defined.

Lemma clean_text_normal_form_witness : clean_text (lit "{}") = lit "{}".
Proof.
  destruct (clean_text_normal_form (lit "{}")) as [_ [_ [_ H]]].
  apply H. split; reflexivity.
Defined.


Lemma object_reply_witness :
  length (store (main (sample_run AnalyzeEntry anxious fenced_reply
                                  (lit "2024-05-01 09:05:00")) [])) = 1%nat.
Proof.
  destruct (object_reply_is_shown_and_stored
              (sample_run AnalyzeEntry anxious fenced_reply (lit "2024-05-01 09:05:00")) []
              [(k_emotion, JStr (lit "anxiety"));
               (k_summary, JStr (lit "Feeling anxious about an upcoming event"));
               (k_advice, JStr (lit "Try a short breathing exercise."))])
    as [H _]; [vm_compute; reflexivity ..|discriminate|vm_compute; reflexivity|].
  rewrite H. reflexivity.
Defined.

Lemma falsy_reply_witness :
  store (main (sample_run AnalyzeEntry anxious (lit "{}") (lit "2024-05-01 09:05:00")) [])
  = [].
Proof.
  apply (falsy_reply_is_refused_by_ui_only
           (sample_run AnalyzeEntry anxious (lit "{}") (lit "2024-05-01 09:05:00"))
           [] (lit "{}") (JObj [])); vm_compute; reflexivity.
Defined.

Lemma undisplayable_reply_witness :
  uncaught (main (sample_run AnalyzeEntry anxious (lit "42") (lit "2024-05-01 09:05:00")) [])
  = Some TypeError /\
  uncaught (main (sample_run AnalyzeEntry anxious surrogate_reply
                             (lit "2024-05-01 09:05:00")) [])
  = Some UnicodeEncodeError.
Proof.
  split.
  - destruct (undisplayable_reply_raises
                (sample_run AnalyzeEntry anxious (lit "42") (lit "2024-05-01 09:05:00"))
                [] (JInt 42)) as [Hs [_ Hd]]; [vm_compute; reflexivity ..|].
    apply Hd, Hs. reflexivity.
  - destruct (undisplayable_reply_raises
                (sample_run AnalyzeEntry anxious surrogate_reply (lit "2024-05-01 09:05:00"))
                [] (JObj [(k_summary, JStr [55357])])) as [_ [Hs Hd]];
      [vm_compute; reflexivity ..|].
    apply Hd, (Hs [(k_summary, JStr [55357])]); reflexivity.
Defined.

Lemma ui_remote_error_witness :
  store (main {| env_key := Some (lit "secret"); typed_key := [];
                 file := Readable (lit "Be kind."); clicked := AnalyzeEntry;
                 text_area := anxious; now := lit "2024-05-01 09:05:00";
                 model := service_down |} [])
  = [].
Proof.
  apply (ui_remote_error_is_shown _ [] (lit "503 Service Unavailable"));
    vm_compute; reflexivity.
Defined.

Lemma no_key_witness :
  store (main {| env_key := None; typed_key := []; file := Missing [];
                 clicked := ClearHistory; text_area := anxious; now := [];
                 model := service_down |}
              [{| timestamp := []; entry := anxious; analysis := None |}])
  = [{| timestamp := []; entry := anxious; analysis := None |}].
Proof.
  destruct (no_key_blocks_every_action
              {| env_key := None; typed_key := []; file := Missing [];
                 clicked := ClearHistory; text_area := anxious; now := [];
                 model := service_down |}
              [{| timestamp := []; entry := anxious; analysis := None |}]) as [_ H].
  rewrite H; reflexivity.
Defined.

Lemma clear_witness :
  page (main (sample_run ClearHistory anxious prose_reply (lit "2024-05-01 09:10:00"))
             [{| timestamp := []; entry := anxious; analysis := None |}])
  = [Elem SidebarInfo [PText (lit "Entries today: "); PInt 0]].
Proof.
  destruct (clear_is_a_fresh_run
              (sample_run ClearHistory anxious prose_reply (lit "2024-05-01 09:10:00"))
              [{| timestamp := []; entry := anxious; analysis := None |}])
    as [_ H]; [reflexivity|reflexivity|].
  rewrite H. reflexivity.
Defined.

Lemma run_raises_witness :
  clicked (sample_run AnalyzeEntry anxious (lit "42") (lit "2024-05-01 09:05:00"))
  = AnalyzeEntry.
Proof.
  destruct (run_raises_only_in_the_display []
              (sample_run AnalyzeEntry anxious (lit "42") (lit "2024-05-01 09:05:00"))
              TypeError) as [_ [H _]]; [vm_compute; reflexivity|exact H].
Defined.

Lemma model_consulted_witness :
  main (with_model service_down
          (sample_run SaveEntry anxious prose_reply (lit "2024-05-01 09:00:00"))) []
  = main (sample_run SaveEntry anxious prose_reply (lit "2024-05-01 09:00:00")) [].
Proof.
  apply model_is_consulted_on_one_request. intros _ H. discriminate H.
Defined.

Lemma session_without_clear_witness :
  length (session [sample_run SaveEntry (lit "   ") prose_reply (lit "2024-05-01 09:00:00");
                   sample_run AnalyzeEntry anxious prose_reply (lit "2024-05-01 09:01:00");
                   sample_run SaveEntry anxious prose_reply (lit "2024-05-01 09:02:00")]
                  []) = 1%nat.
Proof.
  destruct (session_without_clear
              [sample_run SaveEntry (lit "   ") prose_reply (lit "2024-05-01 09:00:00");
               sample_run AnalyzeEntry anxious prose_reply (lit "2024-05-01 09:01:00");
               sample_run SaveEntry anxious prose_reply (lit "2024-05-01 09:02:00")]
              []) as [_ H]; [vm_compute; reflexivity|].
  rewrite H. vm_compute. reflexivity.
Defined.

Lemma session_after_clear_witness :
  session ([sample_run SaveEntry anxious prose_reply (lit "2024-05-01 09:00:00")]
           ++ sample_run ClearHistory anxious prose_reply (lit "2024-05-01 09:01:00")
              :: [sample_run SaveEntry anxious prose_reply (lit "2024-05-01 09:02:00")])
          []
  = session [sample_run SaveEntry anxious prose_reply (lit "2024-05-01 09:02:00")] [].
Proof. apply session_after_clear. reflexivity. Defined.

Lemma save_stores_witness :
  store (main (sample_run SaveEntry (lit "  ok ") prose_reply (lit "2024-05-01 09:00:00")) [])
  = [{| timestamp := lit "2024-05-01 09:00:00"; entry := lit "  ok "; analysis := None |}].
Proof.
  destruct (save_stores_iff_visible
              (sample_run SaveEntry (lit "  ok ") prose_reply (lit "2024-05-01 09:00:00")) [])
    as [[H _] _]; [reflexivity|reflexivity|].
  apply H. exists 111. split; [vm_compute; tauto|reflexivity].
Defined.

Lemma entries_count_witness :
  In (Elem SidebarInfo [PText (lit "Entries today: "); PInt 0])
     (page (main (sample_run SaveEntry anxious prose_reply (lit "2024-05-01 09:00:00")) [])).
Proof.
  destruct (entries_count_lags_behind
              (sample_run SaveEntry anxious prose_reply (lit "2024-05-01 09:00:00")) [])
    as [H _]; [reflexivity|exact H].
Defined.


Lemma cli_loop_endings_witness :
  Exists (fun u => is_exit u = true) [anxious; lit "exit"].
Proof.
  destruct (cli_loop_endings (fun _ => Reply prose_reply) cli_default_prompt
              [anxious; lit "exit"]) as [H _].
  apply H. reflexivity.
Defined.

Lemma is_exit_witness : is_exit (lit "eXiT") = true.
Proof.
  apply is_exit_exactly. exists 101, 88, 105, 84.
  repeat split; tauto.
Defined.

Lemma combined_prompt_witness : anxious = anxious.
Proof.
  destruct (combined_prompt_keeps_the_text cli_default_prompt anxious anxious)
    as [_ [_ [H _]]].
  apply H. reflexivity.
Defined.

Lemma reply_that_cannot_be_json_witness :
  normalize_reply (lit "You seem calm today.") = (None, Some (lit "You seem calm today.")).
Proof.
  apply (reply_that_cannot_be_json (lit "You seem calm today.")).
  right. exists 89, (lit "ou seem calm today."). split; reflexivity.
Defined.

Lemma unreadable_prompt_file_witness :
  run_prompt {| env_key := Some (lit "secret"); typed_key := [];
                file := Unreadable (lit "[Errno 13] Permission denied");
                clicked := NoClick; text_area := []; now := [];
                model := service_down |}
  = gui_default_prompt.
Proof.
  destruct (unreadable_prompt_file_is_reported
              {| env_key := Some (lit "secret"); typed_key := [];
                 file := Unreadable (lit "[Errno 13] Permission denied");
                 clicked := NoClick; text_area := []; now := [];
                 model := service_down |} []
              (lit "[Errno 13] Permission denied")) as [H _]; [reflexivity|].
  apply H. reflexivity.
Defined.

Lemma store_entries_witness :
  exists i, In i [sample_run AnalyzeEntry anxious fenced_reply (lit "2024-05-01 09:05:00")]
            /\ successful i = true.
Proof.
  destruct (store_entries_come_from_actions
              [sample_run AnalyzeEntry anxious fenced_reply (lit "2024-05-01 09:05:00")]
              (action_entry (sample_run AnalyzeEntry anxious fenced_reply
                                        (lit "2024-05-01 09:05:00"))))
    as [i [Hi [Hs _]]].
  - vm_compute. now left.
  - exists i. now split.
Defined.

Lemma no_click_witness :
  store (main (sample_run NoClick anxious prose_reply (lit "2024-05-01 09:10:00"))
              [{| timestamp := []; entry := anxious; analysis := None |}])
  = [{| timestamp := []; entry := anxious; analysis := None |}].
Proof.
  apply (no_click_run_is_read_only
           (sample_run NoClick anxious prose_reply (lit "2024-05-01 09:10:00")));
    reflexivity.
Defined.

Lemma json_loads_raises_witness :
  cli_loop (fun _ => Reply long_integer_reply) cli_default_prompt [anxious; lit "exit"]
  = ([], Crashed ValueError).
Proof.
  destruct (json_loads_raises_only_expected long_integer_reply ValueError
              (lit "Exceeds the limit (4300 digits) for integer string conversion: value has 4301 digits; use sys.set_int_max_str_digits() to increase the limit"))
    as [_ [_ [_ [_ [_ Hl]]]]]; [vm_compute; reflexivity|].
  apply Hl; reflexivity.
Defined.

Lemma short_reply_witness : cli_handles prose_reply = true.
Proof.
  destruct (short_reply_raises_nothing_else prose_reply) as [H _].
  - apply Nat.leb_le. vm_compute. reflexivity.
  - apply Nat.leb_le. vm_compute. reflexivity.
  - exact H.
Defined.

Lemma more_room_witness :
  @json_loads roomy sample_doc
  = Some (JObj [(k_emotion, JStr (lit "anxiety"));
                (k_summary, JStr (lit "Feeling anxious about an upcoming event"));
                (k_advice, JStr (lit "Try a short breathing exercise."))]).
Proof.
  apply (more_room_decodes_the_same cpython_default roomy).
  - apply Nat.leb_le. vm_compute. reflexivity.
  - left. reflexivity.
  - vm_compute. reflexivity.
Defined.
